(** * faff_qa: the four-stage answer-quality pipeline

    A shallow embedding of [src/faff_qa.py].  Python text is modelled by
    Stdlib strings holding its UTF-8 encoding, JSON-derived
    values by the inductive [pyval], exceptions by the inductive [exn], and the
    calls to the text-generation service by an error monad that also records
    every request that was issued. *)

From Stdlib Require Import String Ascii List ZArith NArith Bool Lia.
From Stdlib Require Import DecimalString.
Import ListNotations.
Open Scope string_scope.

(** ** Python [str] operations used by the pipeline *)

Module PyStr.

(** [s.startswith(p)] *)
Fixpoint startswith (p s : string) : bool :=
  match p, s with
  | EmptyString, _ => true
  | String a p', String b s' => Ascii.eqb a b && startswith p' s'
  | String _ _, EmptyString => false
  end.

(** [sub in s] *)
Fixpoint contains (sub s : string) : bool :=
  startswith sub s ||
  match s with
  | EmptyString => false
  | String _ s' => contains sub s'
  end.

(** [s.split(sep)] for a non-empty separator: the pieces between the
    non-overlapping occurrences of [sep], found from left to right.  [skip]
    counts the characters of a separator that was just matched and is still
    to be passed over. *)
Fixpoint split_from (sep s : string) (skip : nat) : list string :=
  match s with
  | EmptyString => [EmptyString]
  | String c s' =>
      match skip with
      | S k => split_from sep s' k
      | O =>
          if startswith sep s
          then EmptyString :: split_from sep s' (String.length sep - 1)
          else match split_from sep s' 0 with
               | p :: ps => String c p :: ps
               | [] => [String c EmptyString]
               end
      end
  end.

Definition split (sep s : string) : list string := split_from sep s 0.

(** The part of [s] before the first occurrence of [sep] (all of [s] when
    there is none), and the part after it. *)
Fixpoint before (sep s : string) : string :=
  if startswith sep s then EmptyString
  else match s with
       | EmptyString => EmptyString
       | String c s' => String c (before sep s')
       end.

Fixpoint drop (n : nat) (s : string) : string :=
  match n, s with
  | S k, String _ s' => drop k s'
  | _, _ => s
  end.

Fixpoint after (sep s : string) : string :=
  if startswith sep s then drop (String.length sep) s
  else match s with
       | EmptyString => EmptyString
       | String _ s' => after sep s'
       end.

(** The byte string with the given byte values. *)
Fixpoint bytes (l : list nat) : string :=
  match l with
  | [] => EmptyString
  | n :: l' => String (ascii_of_nat n) (bytes l')
  end.

(** The characters [c] with [c.isspace()], each in its UTF-8 encoding:
    U+0009..U+000D, U+001C..U+0020, U+0085, U+00A0, U+1680, U+2000..U+200A,
    U+2028, U+2029, U+202F, U+205F and U+3000. *)
Definition whitespace : list string :=
  map bytes
    ([[9]; [10]; [11]; [12]; [13]; [28]; [29]; [30]; [31]; [32];
      [194; 133]; [194; 160]; [225; 154; 128]]
     ++ map (fun k => [226; 128; 128 + k]) (seq 0 11)
     ++ [[226; 128; 168]; [226; 128; 169]; [226; 128; 175];
         [226; 129; 159]; [227; 128; 128]]).

Fixpoint reverse_onto (s acc : string) : string :=
  match s with
  | EmptyString => acc
  | String c s' => reverse_onto s' (String c acc)
  end.

Definition reverse (s : string) : string := reverse_onto s EmptyString.

(** Removes the tokens of [ws] found at the start of [s], one per unit of
    fuel; every token is non-empty, so [length s] units are enough. *)
Fixpoint strip_start (ws : list string) (fuel : nat) (s : string) : string :=
  match fuel with
  | O => s
  | S fuel' =>
      match find (fun t => startswith t s) ws with
      | Some t => strip_start ws fuel' (drop (String.length t) s)
      | None => s
      end
  end.

Definition lstrip (s : string) : string :=
  strip_start whitespace (String.length s) s.

Definition rstrip (s : string) : string :=
  reverse (strip_start (map reverse whitespace) (String.length s) (reverse s)).

(** [s.strip()] *)
Definition strip (s : string) : string := rstrip (lstrip s).

(** [str(n)] for a natural number, as an f-string renders [{i+1}]. *)
Definition str_of_nat (n : nat) : string :=
  NilEmpty.string_of_uint (Nat.to_uint n).

Definition nl : string := String (ascii_of_nat 10) EmptyString.
Definition dq : string := String (ascii_of_nat 34) EmptyString.
Definition quoted (s : string) : string := dq ++ s ++ dq.

End PyStr.

(** ** Python values *)

(** A Python [float], as [json.loads] can produce it: the double nearest to
    the decimal [(-1)^neg * mant * 10^exp10], an infinity, or a NaN. *)
Inductive pyfloat : Type :=
| FDec (neg : bool) (mant : N) (exp10 : Z)
| FInf (neg : bool)
| FNaN.

(** The values a JSON document decodes to.  A [dict] keeps its items in
    insertion order, with one item per key. *)
#[warnings="-register-all"]
Inductive pyval : Type :=
| PNone
| PBool (b : bool)
| PInt (z : Z)
| PFloat (f : pyfloat)
| PStr (s : string)
| PList (l : list pyval)
| PDict (d : list (string * pyval)).

Definition pydict : Type := list (string * pyval).

(** Whether the decimal rounds to zero: it is zero, or at most half of the
    least positive double, [2^-1075] (the tie rounds to the even [0.0]). *)
Definition rounds_to_zero (mant : N) (exp10 : Z) : bool :=
  (mant =? 0)%N
  || ((exp10 <? 0)%Z
      && (Z.of_N mant * 2 ^ 1075 <=? 10 ^ (- exp10))%Z).

Definition float_truthy (f : pyfloat) : bool :=
  match f with
  | FDec _ m e => negb (rounds_to_zero m e)
  | FInf _ => true
  | FNaN => true
  end.

Definition str_truthy (s : string) : bool :=
  match s with
  | EmptyString => false
  | String _ _ => true
  end.

(** [bool(v)], the truth value that [if], [not] and [or] test. *)
Definition py_truthy (v : pyval) : bool :=
  match v with
  | PNone => false
  | PBool b => b
  | PInt z => negb (z =? 0)%Z
  | PFloat f => float_truthy f
  | PStr s => str_truthy s
  | PList l => match l with [] => false | _ :: _ => true end
  | PDict d => match d with [] => false | _ :: _ => true end
  end.

(** [a or b] *)
Definition py_or (a b : pyval) : pyval := if py_truthy a then a else b.

(** [a or b] at type [Optional[str]] on the left and [str] on the right. *)
Definition opt_str_or (a : option string) (b : string) : string :=
  match a with
  | Some s => if str_truthy s then s else b
  | None => b
  end.

Definition opt_dict_truthy (d : option pydict) : bool :=
  match d with
  | Some (_ :: _) => true
  | _ => false
  end.

(** [d[k]] when the key is there. *)
Fixpoint dict_lookup (d : pydict) (k : string) : option pyval :=
  match d with
  | [] => None
  | (k', v) :: d' => if String.eqb k' k then Some v else dict_lookup d' k
  end.

(** [d.get(k, default)] *)
Definition dict_get (d : pydict) (k : string) (default : pyval) : pyval :=
  match dict_lookup d k with
  | Some v => v
  | None => default
  end.

(** [d[k] = v]: a known key keeps its place, a new one goes last. *)
Fixpoint dict_set (d : pydict) (k : string) (v : pyval) : pydict :=
  match d with
  | [] => [(k, v)]
  | (k', v') :: d' =>
      if String.eqb k' k then (k', v) :: d' else (k', v') :: dict_set d' k v
  end.

(** ** Exceptions *)

Inductive exn : Type :=
| ValueError (msg : string)
| TypeError (msg : string)
| IndexError (msg : string)
| JSONDecodeError
| ValidationError (field : string)
| OtherError (cls msg : string).

(** [l[i]] on a list of strings. *)
Definition getitem (l : list string) (i : nat) : exn + string :=
  match nth_error l i with
  | Some x => inr x
  | None => inl (IndexError "list index out of range")
  end.

(** ** A reference decoder for [json.loads]

    The grammar of Python's [json] scanner in its default (strict) mode.  The
    pipeline is verified for every decoder (see [Section Pipeline]); this one
    evaluates the pipeline on concrete responses. *)

Module Json.
Import PyStr.

Definition chr (n : nat) : ascii := ascii_of_nat n.
Definition is_chr (n : nat) (c : ascii) : bool := Nat.eqb (nat_of_ascii c) n.

(** The scanner's whitespace: space, tab, line feed, carriage return. *)
Definition is_ws (c : ascii) : bool :=
  is_chr 32 c || is_chr 9 c || is_chr 10 c || is_chr 13 c.

Fixpoint skip_ws (s : string) : string :=
  match s with
  | EmptyString => EmptyString
  | String c s' => if is_ws c then skip_ws s' else s
  end.

Definition digit_val (c : ascii) : option N :=
  let n := nat_of_ascii c in
  if ((48 <=? n) && (n <=? 57))%nat then Some (N.of_nat (n - 48)) else None.

Definition hex_val (c : ascii) : option N :=
  let n := nat_of_ascii c in
  if ((48 <=? n) && (n <=? 57))%nat then Some (N.of_nat (n - 48))
  else if ((97 <=? n) && (n <=? 102))%nat then Some (N.of_nat (n - 87))
  else if ((65 <=? n) && (n <=? 70))%nat then Some (N.of_nat (n - 55))
  else None.

(** The longest run of decimal digits at the start of [s]: the number it
    continues from [acc], how many digits were read, and what follows. *)
Fixpoint digits (s : string) (acc : N) (cnt : nat) : N * nat * string :=
  match s with
  | EmptyString => (acc, cnt, s)
  | String c s' =>
      match digit_val c with
      | Some d => digits s' (acc * 10 + d)%N (S cnt)
      | None => (acc, cnt, s)
      end
  end.

(** NUMBER_RE: an optional minus sign, then a single zero or a run of digits
    that does not start with zero, then an optional fraction (a dot and
    digits), then an optional exponent (e or E, an optional sign, digits).
    The value is an [int] when it has neither fraction nor exponent, else a
    [float]. *)
Definition number (s : string) : option (pyval * string) :=
  let (neg, s1) :=
    match s with
    | String c r => if is_chr 45 c then (true, r) else (false, s)
    | EmptyString => (false, s)
    end in
  match s1 with
  | EmptyString => None
  | String c r =>
      match digit_val c with
      | None => None
      | Some d =>
          let '(ip, _, s2) := if (d =? 0)%N then (0%N, 1, r) else digits r d 1 in
          let '(mant, fl, s3) :=
            match s2 with
            | String c2 r2 =>
                if is_chr 46 c2 then
                  let '(m, n, r3) := digits r2 ip 0 in
                  if Nat.eqb n 0 then (ip, 0, s2) else (m, n, r3)
                else (ip, 0, s2)
            | EmptyString => (ip, 0, s2)
            end in
          let '(ex, el, s4) :=
            match s3 with
            | String c3 r3 =>
                if is_chr 101 c3 || is_chr 69 c3 then
                  let (eneg, r4) :=
                    match r3 with
                    | String c4 r4 =>
                        if is_chr 45 c4 then (true, r4)
                        else if is_chr 43 c4 then (false, r4) else (false, r3)
                    | EmptyString => (false, r3)
                    end in
                  let '(ev, n, r5) := digits r4 0%N 0 in
                  if Nat.eqb n 0 then (0%Z, 0, s3)
                  else ((if eneg then - Z.of_N ev else Z.of_N ev)%Z, n, r5)
                else (0%Z, 0, s3)
            | EmptyString => (0%Z, 0, s3)
            end in
          if Nat.eqb fl 0 && Nat.eqb el 0
          then Some (PInt (if neg then - Z.of_N ip else Z.of_N ip)%Z, s4)
          else Some (PFloat (FDec neg mant (ex - Z.of_nat fl)%Z), s4)
      end
  end.

Definition hex4 (s : string) : option (N * string) :=
  match s with
  | String a (String b (String c (String d r))) =>
      match hex_val a, hex_val b, hex_val c, hex_val d with
      | Some x, Some y, Some z, Some w =>
          Some ((((x * 16 + y) * 16 + z) * 16 + w)%N, r)
      | _, _, _, _ => None
      end
  | _ => None
  end.

(** [chr(u)] in UTF-8 (three bytes for a lone surrogate). *)
Definition utf8 (u : N) : string :=
  let b (n : N) := N.to_nat n in
  (if u <? 128 then bytes [b u]
   else if u <? 2048 then bytes [b (192 + u / 64); b (128 + u mod 64)]
   else if u <? 65536 then
     bytes [b (224 + u / 4096); b (128 + (u / 64) mod 64); b (128 + u mod 64)]
   else
     bytes [b (240 + u / 262144); b (128 + (u / 4096) mod 64);
            b (128 + (u / 64) mod 64); b (128 + u mod 64)])%N.

(** The character of a one-letter escape. *)
Definition escape (c : ascii) : option ascii :=
  if is_chr 34 c || is_chr 92 c || is_chr 47 c then Some c
  else if is_chr 98 c then Some (chr 8)
  else if is_chr 102 c then Some (chr 12)
  else if is_chr 110 c then Some (chr 10)
  else if is_chr 114 c then Some (chr 13)
  else if is_chr 116 c then Some (chr 9)
  else None.

(** The [\uXXXX] escape whose digits start [s]; a high surrogate followed
    by an escaped low surrogate makes one character. *)
Definition unicode_escape (s : string) : option (string * string) :=
  match hex4 s with
  | None => None
  | Some (u, r) =>
      if ((55296 <=? u) && (u <=? 56319))%N
         && startswith (String (chr 92) (String (chr 117) EmptyString)) r
      then
        match hex4 (drop 2 r) with
        | None => None
        | Some (u2, r2) =>
            if ((56320 <=? u2) && (u2 <=? 57343))%N
            then Some (utf8 (65536 + ((u - 55296) * 1024 + (u2 - 56320)))%N, r2)
            else Some (utf8 u, r)
        end
      else Some (utf8 u, r)
  end.

(** The string literal whose opening quote was just read: its content and
    what follows the closing quote. *)
Fixpoint scanstring (fuel : nat) (s : string) : option (string * string) :=
  match fuel with
  | O => None
  | S fuel' =>
      match s with
      | EmptyString => None
      | String c r =>
          if is_chr 34 c then Some (EmptyString, r)
          else if is_chr 92 c then
            match r with
            | EmptyString => None
            | String e r' =>
                if is_chr 117 e then
                  match unicode_escape r' with
                  | None => None
                  | Some (ch, r2) =>
                      match scanstring fuel' r2 with
                      | Some (str, rest) => Some (ch ++ str, rest)
                      | None => None
                      end
                  end
                else
                  match escape e with
                  | None => None
                  | Some ch =>
                      match scanstring fuel' r' with
                      | Some (str, rest) => Some (String ch str, rest)
                      | None => None
                      end
                  end
            end
          else if (nat_of_ascii c <? 32)%nat then None
          else
            match scanstring fuel' r with
            | Some (str, rest) => Some (String c str, rest)
            | None => None
            end
      end
  end.

Definition literal (s : string) : option (pyval * string) :=
  if startswith "null" s then Some (PNone, drop 4 s)
  else if startswith "true" s then Some (PBool true, drop 4 s)
  else if startswith "false" s then Some (PBool false, drop 5 s)
  else
    match number s with
    | Some r => Some r
    | None =>
        if startswith "NaN" s then Some (PFloat FNaN, drop 3 s)
        else if startswith "Infinity" s then Some (PFloat (FInf false), drop 8 s)
        else if startswith "-Infinity" s then Some (PFloat (FInf true), drop 9 s)
        else None
    end.

(** [scan_once]: one JSON value at the start of [s].  [array_items] reads the
    items of an array after its bracket, [object_items] the items of an
    object after the opening quote of a key. *)
Fixpoint scan_once (fuel : nat) (s : string) {struct fuel}
  : option (pyval * string) :=
  match fuel with
  | O => None
  | S f =>
      match s with
      | EmptyString => None
      | String c r =>
          if is_chr 34 c then
            match scanstring (String.length s) r with
            | Some (str, r') => Some (PStr str, r')
            | None => None
            end
          else if is_chr 123 c then
            match skip_ws r with
            | EmptyString => None
            | String c1 r1 =>
                if is_chr 125 c1 then Some (PDict [], r1)
                else if is_chr 34 c1 then object_items f r1 []
                else None
            end
          else if is_chr 91 c then
            match skip_ws r with
            | EmptyString => None
            | String c1 r1 =>
                if is_chr 93 c1 then Some (PList [], r1)
                else array_items f (String c1 r1) []
            end
          else literal s
      end
  end
with array_items (fuel : nat) (s : string) (acc : list pyval) {struct fuel}
  : option (pyval * string) :=
  match fuel with
  | O => None
  | S f =>
      match scan_once f s with
      | None => None
      | Some (v, r) =>
          match skip_ws r with
          | EmptyString => None
          | String c r1 =>
              if is_chr 93 c then Some (PList (rev (v :: acc)), r1)
              else if is_chr 44 c then array_items f (skip_ws r1) (v :: acc)
              else None
          end
      end
  end
with object_items (fuel : nat) (s : string) (acc : pydict) {struct fuel}
  : option (pyval * string) :=
  match fuel with
  | O => None
  | S f =>
      match scanstring (S (String.length s)) s with
      | None => None
      | Some (k, r) =>
          match skip_ws r with
          | EmptyString => None
          | String c r1 =>
              if is_chr 58 c then
                match scan_once f (skip_ws r1) with
                | None => None
                | Some (v, r2) =>
                    let acc' := dict_set acc k v in
                    match skip_ws r2 with
                    | EmptyString => None
                    | String c2 r3 =>
                        if is_chr 125 c2 then Some (PDict acc', r3)
                        else if is_chr 44 c2 then
                          match skip_ws r3 with
                          | EmptyString => None
                          | String c3 r4 =>
                              if is_chr 34 c3 then object_items f r4 acc' else None
                          end
                        else None
                    end
                end
              else None
          end
      end
  end.

(** [json.loads(s)]: one value between optional whitespace, and nothing
    else; every failure is a [JSONDecodeError]. *)
Definition loads (s : string) : exn + pyval :=
  match scan_once (2 * String.length s + 2) (skip_ws s) with
  | Some (v, r) =>
      match skip_ws r with
      | EmptyString => inr v
      | String _ _ => inl JSONDecodeError
      end
  | None => inl JSONDecodeError
  end.

End Json.

(** ** Requests, state and effects *)

(** The keyword arguments of one [client.messages.create] call; [prompt] is
    the content of its single user message. *)
Record Request : Type := {
  model : string;
  max_tokens : Z;
  temperature : pyfloat;
  system : string;
  prompt : string
}.

(** [anthropic.Anthropic(api_key=...)] *)
Record Client : Type := { api_key : string }.

(** One formatting example, with the four keys that
    [load_formatting_examples_from_csv] gives it. *)
Record FormattingExample : Type := {
  task : string;
  bad_format : string;
  good_format : string;
  explanation : string
}.

(** [class AgentState(BaseModel)]: six declared fields, each with its
    declared type. *)
Record AgentState : Type := {
  user_query : string;
  proposed_answer : string;
  grammar_fixed_answer : option string;
  adequacy_assessment : option pydict;
  format_assessment : option pydict;
  final_answer : option string
}.

(** Computations that may raise: [inl e] is the exception raised. *)
Definition ebind {A B : Type} (r : exn + A) (k : A -> exn + B) : exn + B :=
  match r with
  | inl e => inl e
  | inr a => k a
  end.

(** Computations that call the text-generation service: they thread the
    log of the requests issued so far, and return a value or raise. *)
Definition M (A : Type) : Type := list Request -> list Request * (exn + A).

Definition ret {A : Type} (a : A) : M A := fun log => (log, inr a).

Definition lift {A : Type} (r : exn + A) : M A := fun log => (log, r).

Definition raise {A : Type} (e : exn) : M A := lift (inl e).

Definition bind {A B : Type} (m : M A) (k : A -> M B) : M B :=
  fun log =>
    match m log with
    | (log', inr a) => k a log'
    | (log', inl e) => (log', inl e)
    end.

Declare Scope py_scope.
Delimit Scope py_scope with py.
Notation "x <- m ;; k" := (bind m (fun x => k))
  (at level 61, m at next level, right associativity) : py_scope.
Notation "x <~ r ;; k" := (ebind r (fun x => k))
  (at level 61, r at next level, right associativity) : py_scope.

(** Values of the optional fields, as Python values. *)
Definition of_opt_str (o : option string) : pyval :=
  match o with
  | Some s => PStr s
  | None => PNone
  end.

Definition of_opt_dict (o : option pydict) : pyval :=
  match o with
  | Some d => PDict d
  | None => PNone
  end.

(** Validation of a value against a declared field type. *)
Definition as_str (field : string) (v : pyval) : exn + string :=
  match v with
  | PStr s => inr s
  | _ => inl (ValidationError field)
  end.

Definition as_opt_str (field : string) (v : pyval) : exn + option string :=
  match v with
  | PNone => inr None
  | PStr s => inr (Some s)
  | _ => inl (ValidationError field)
  end.

Definition as_opt_dict (field : string) (v : pyval) : exn + option pydict :=
  match v with
  | PNone => inr None
  | PDict d => inr (Some d)
  | _ => inl (ValidationError field)
  end.

(** A state with one field replaced. *)
Definition with_grammar (st : AgentState) (text : string) : AgentState :=
  {| user_query := user_query st;
     proposed_answer := proposed_answer st;
     grammar_fixed_answer := Some text;
     adequacy_assessment := adequacy_assessment st;
     format_assessment := format_assessment st;
     final_answer := final_answer st |}.

Definition with_adequacy (st : AgentState) (a : option pydict) : AgentState :=
  {| user_query := user_query st;
     proposed_answer := proposed_answer st;
     grammar_fixed_answer := grammar_fixed_answer st;
     adequacy_assessment := a;
     format_assessment := format_assessment st;
     final_answer := final_answer st |}.

Definition with_format (st : AgentState) (a : option pydict) : AgentState :=
  {| user_query := user_query st;
     proposed_answer := proposed_answer st;
     grammar_fixed_answer := grammar_fixed_answer st;
     adequacy_assessment := adequacy_assessment st;
     format_assessment := a;
     final_answer := final_answer st |}.

Definition with_final (st : AgentState) (a : option string) : AgentState :=
  {| user_query := user_query st;
     proposed_answer := proposed_answer st;
     grammar_fixed_answer := grammar_fixed_answer st;
     adequacy_assessment := adequacy_assessment st;
     format_assessment := format_assessment st;
     final_answer := a |}.

Definition with_query (st : AgentState) (s : string) : AgentState :=
  {| user_query := s;
     proposed_answer := proposed_answer st;
     grammar_fixed_answer := grammar_fixed_answer st;
     adequacy_assessment := adequacy_assessment st;
     format_assessment := format_assessment st;
     final_answer := final_answer st |}.

Definition with_proposed (st : AgentState) (s : string) : AgentState :=
  {| user_query := user_query st;
     proposed_answer := s;
     grammar_fixed_answer := grammar_fixed_answer st;
     adequacy_assessment := adequacy_assessment st;
     format_assessment := format_assessment st;
     final_answer := final_answer st |}.

(** One item of a node's result, as the next node finds it in its state.
    [StateGraph(AgentState)] has one channel per declared field: an item
    whose key names no field is not stored, and an item whose key names a
    field is stored as it is; its value is validated against the field's type
    when the state of the next node is made from the channels, before that
    node runs.  [set_field] is the write followed by this validation. *)
Definition set_field (st : AgentState) (k : string) (v : pyval)
  : exn + AgentState :=
  if String.eqb k "user_query" then
    ebind (as_str k v) (fun s => inr (with_query st s))
  else if String.eqb k "proposed_answer" then
    ebind (as_str k v) (fun s => inr (with_proposed st s))
  else if String.eqb k "grammar_fixed_answer" then
    ebind (as_opt_str k v)
          (fun o => inr {| user_query := user_query st;
                           proposed_answer := proposed_answer st;
                           grammar_fixed_answer := o;
                           adequacy_assessment := adequacy_assessment st;
                           format_assessment := format_assessment st;
                           final_answer := final_answer st |})
  else if String.eqb k "adequacy_assessment" then
    ebind (as_opt_dict k v) (fun o => inr (with_adequacy st o))
  else if String.eqb k "format_assessment" then
    ebind (as_opt_dict k v) (fun o => inr (with_format st o))
  else if String.eqb k "final_answer" then
    ebind (as_opt_str k v) (fun o => inr (with_final st o))
  else inr st.

(** The whole result of a node, as the state of the next node. *)
Fixpoint update_state (st : AgentState) (upd : pydict) : exn + AgentState :=
  match upd with
  | [] => inr st
  | (k, v) :: upd' => ebind (set_field st k v) (fun st' => update_state st' upd')
  end.

(** The values of the channels, from the state that a node has read. *)
Definition state_values (st : AgentState) : pydict :=
  [("user_query", PStr (user_query st));
   ("proposed_answer", PStr (proposed_answer st));
   ("grammar_fixed_answer", of_opt_str (grammar_fixed_answer st));
   ("adequacy_assessment", of_opt_dict (adequacy_assessment st));
   ("format_assessment", of_opt_dict (format_assessment st));
   ("final_answer", of_opt_str (final_answer st))].

(** The result of a node written to the channels: an item whose key names a
    channel replaces its value, whatever the value is, and any other item is
    not stored. *)
Fixpoint write_channels (channels upd : pydict) : pydict :=
  match upd with
  | [] => channels
  | (k, v) :: upd' =>
      write_channels
        match dict_lookup channels k with
        | Some _ => dict_set channels k v
        | None => channels
        end
        upd'
  end.

(** [result.name] on the [dict] that [graph.invoke] returns, for a name that
    is no method of [dict]: a [dict] gives its items by key, not as
    attributes.  The message names the class of the object. *)
Definition mapping_getattr (result : pydict) (name : string) : exn + pyval :=
  inl (OtherError "AttributeError"
         ("'dict' object has no attribute '" ++ name ++ "'")).

(** [fixed != proposed if fixed else False], for a value [fixed] and a
    string [proposed]: a value that is not a string differs from every
    string. *)
Definition grammar_fixed_of (fixed : pyval) (proposed : string) : bool :=
  if py_truthy fixed then
    match fixed with
    | PStr s => negb (String.eqb s proposed)
    | _ => true
    end
  else false.

(** ** Concrete inputs

    A request of the specification's end-to-end scenario, replies of the
    service, and a service that answers from a script. *)

Module Demo.
Import PyStr.

Definition query : string := "How do I reset my password?".
Definition answer : string := "go to setting then click reste pasword link".

(** A state whose grammar stage returned the empty text. *)
Definition empty_fix : AgentState :=
  {| user_query := query;
     proposed_answer := answer;
     grammar_fixed_answer := Some EmptyString;
     adequacy_assessment := None;
     format_assessment := None;
     final_answer := None |}.

Definition fixed : string :=
  "Go to settings, then click the reset password link.".

Definition prose : string := "Sure, here's my thoughts: ...".

(** A bare JSON document, one of whose strings holds a fenced snippet. *)
Definition bare_json_with_fence : string :=
  "{" ++ quoted "adequately_addressed" ++ ": true, "
  ++ quoted "missing_aspects" ++ ": [], "
  ++ quoted "suggestions" ++ ": [], "
  ++ quoted "improved_answer" ++ ": " ++ quoted "Run ```ls``` first" ++ "}".

(** A JSON document inside a fenced block labelled json. *)
Definition fenced_json : string :=
  "Here is the result:" ++ nl ++ "```json" ++ nl
  ++ "{" ++ quoted "formatting_issues" ++ ": [" ++ quoted "one long line" ++ "], "
  ++ quoted "improvements_made" ++ ": [" ++ quoted "numbered steps" ++ "], "
  ++ quoted "improved_answer" ++ ": "
  ++ quoted "1. Go to Settings.\n2. Click the reset password link." ++ "}"
  ++ nl ++ "```" ++ nl.

Definition examples : list FormattingExample :=
  map (fun n =>
         {| task := "task " ++ str_of_nat n;
            bad_format := "bad " ++ str_of_nat n;
            good_format := "good " ++ str_of_nat n;
            explanation := "why " ++ str_of_nat n |})
      (seq 1 8).

(** The state after a grammar stage that returned [fixed]. *)
Definition fixed_state : AgentState :=
  {| user_query := query;
     proposed_answer := answer;
     grammar_fixed_answer := Some fixed;
     adequacy_assessment := None;
     format_assessment := None;
     final_answer := None |}.

Definition environ : option string := Some "sk-test".
Definition client : Client := {| api_key := "sk-test" |}.

(** No file of examples is there to read. *)
Definition no_csv : exn + list FormattingExample :=
  inl (OtherError "FileNotFoundError" "faff_formatting_examples.csv").

(** The service that gives the n-th reply of a script to the n-th request,
    and fails when the script is over. *)
Definition scripted (replies : list (exn + string))
  : Client -> list Request -> Request -> exn + string :=
  fun _ log _ =>
    nth (List.length log) replies
        (inl (OtherError "APIConnectionError" "Connection error.")).

Definition replies : list (exn + string) :=
  [inr fixed; inr prose; inr fenced_json].

Definition gateway : Client -> list Request -> Request -> exn + string :=
  scripted replies.

(** A formatting reply whose improved answer is a list. *)
Definition list_reply : string :=
  "{" ++ quoted "improved_answer" ++ ": [" ++ quoted "a" ++ "]}".

Definition list_gateway : Client -> list Request -> Request -> exn + string :=
  scripted [inr fixed; inr prose; inr list_reply].

(** A result as [main] indexes it, and one as the [return] statement of
    [process_answer] lays it out. *)
Definition nested_result : pydict :=
  [("final_answer",
    PDict [("final_answer", PStr fixed);
           ("adequacy_assessment", PDict [("adequately_addressed", PBool true)]);
           ("format_assessment",
            PDict [("formatting_issues", PList [PStr "one long line"])])])].

Definition flat_result : pydict :=
  [("original_answer", PStr answer);
   ("final_answer", PStr fixed);
   ("analysis",
    PDict [("grammar_fixed", PBool true);
           ("adequacy_assessment", PNone);
           ("format_assessment", PNone)])].

(** [str] of the scalar values; the script never needs another one. *)
Definition str_of_scalar (v : pyval) : string :=
  match v with
  | PNone => "None"
  | PBool true => "True"
  | PBool false => "False"
  | PInt z => NilEmpty.string_of_int (Z.to_int z)
  | _ => EmptyString
  end.

End Demo.

(** ** The example store

    The body of [load_formatting_examples_from_csv], from the rows that
    [csv.DictReader] yields to the list of examples. *)

Module Csv.
Import PyStr.
Open Scope py_scope.

(** A row of [csv.DictReader], a [dict]: a cell for every column of the
    header (each column once), which is [None] where a short line has no cell
    for the column. *)
Definition row : Type := list (string * option string).

Fixpoint row_lookup (r : row) (key : string) : option (option string) :=
  match r with
  | [] => None
  | (k, c) :: r' => if String.eqb k key then Some c else row_lookup r' key
  end.

(** [row[key]] *)
Definition row_getitem (r : row) (key : string) : exn + option string :=
  match row_lookup r key with
  | Some c => inr c
  | None => inl (OtherError "KeyError" key)
  end.

(** [cell.strip()] *)
Definition cell_strip (c : option string) : exn + string :=
  match c with
  | Some s => inr (strip s)
  | None =>
      inl (OtherError "AttributeError"
             "'NoneType' object has no attribute 'strip'")
  end.

(** [f"Change Description {i}"] *)
Definition description_key (i : nat) : string :=
  "Change Description " ++ str_of_nat i.

(** One turn of the loop over [range(1, 5)]: the stripped cell is appended
    when the column is there and the stripped cell is not empty. *)
Definition add_description (r : row) (change_descriptions : list string)
  (i : nat) : exn + list string :=
  match row_lookup r (description_key i) with
  | None => inr change_descriptions
  | Some c =>
      desc <~ cell_strip c ;;
      if str_truthy desc then inr (change_descriptions ++ [desc])%list
      else inr change_descriptions
  end.

Fixpoint descriptions_loop (r : row) (indices : list nat)
  (change_descriptions : list string) : exn + list string :=
  match indices with
  | [] => inr change_descriptions
  | i :: rest =>
      change_descriptions <~ add_description r change_descriptions i ;;
      descriptions_loop r rest change_descriptions
  end.

Definition change_descriptions (r : row) : exn + list string :=
  descriptions_loop r (seq 1 4) [].

(** The bullet and the space after it. *)
Definition bullet : string := bytes [226; 128; 162; 32].

(** The bullet lines joined by line feeds. *)
Definition explanation_of (descriptions : list string) : string :=
  String.concat nl (map (fun desc => bullet ++ desc) descriptions).

(** The body of the loop over the rows: the example of one row. *)
Definition example_of_row (r : row) : exn + pydict :=
  descriptions <~ change_descriptions r ;;
  t <~ row_getitem r "Task" ;;
  b <~ row_getitem r "Bad Formatting" ;;
  g <~ row_getitem r "Good Formatting" ;;
  inr [("task", of_opt_str t);
       ("bad_format", of_opt_str b);
       ("good_format", of_opt_str g);
       ("explanation", PStr (explanation_of descriptions))].

Fixpoint load_rows (rows : list row) (examples : list pydict)
  : exn + list pydict :=
  match rows with
  | [] => inr examples
  | r :: rest =>
      example <~ example_of_row r ;;
      load_rows rest (examples ++ [example])%list
  end.

(** The function, given what opening and reading the file produces: the
    rows, or the exception raised on the way. *)
Definition load_formatting_examples_from_csv (file : exn + list row)
  : exn + list pydict :=
  rows <~ file ;;
  load_rows rows [].

(** Two rows, the second with a blank description and missing ones, and
    the row of a short line. *)
Definition demo_rows : list row :=
  [[("Task", Some "reset password"); ("Bad Formatting", Some "go to settings");
    ("Good Formatting", Some "1. Go to Settings."); 
    ("Change Description 1", Some " numbered steps ");
    ("Change Description 2", Some "capital letters");
    ("Change Description 3", Some "full stops");
    ("Change Description 4", Some "one step per line")];
   [("Task", Some " refund "); ("Bad Formatting", Some "we refund");
    ("Good Formatting", Some "We refund.");
    ("Change Description 1", Some "   ");
    ("Change Description 2", Some "capital letter")]].

(** The row of a record whose quoted first description holds a blank
    line. *)
Definition blank_line_row : row :=
  [("Task", Some "refund"); ("Bad Formatting", Some "we refund");
   ("Good Formatting", Some "We refund.");
   ("Change Description 1", Some ("capital letter" ++ nl ++ nl ++ "full stop"));
   ("Change Description 2", Some " ")].

Definition short_row : row :=
  [("Task", Some "refund"); ("Bad Formatting", Some "we refund");
   ("Good Formatting", None); ("Change Description 1", None)].

End Csv.

(** ** Replies that hold a block

    The text before a fenced block, the content of the block and the text
    after it. *)

Module Block.
Import PyStr.

Definition pre : string := "Here is the result:" ++ nl.

Definition body : string :=
  nl ++ "{" ++ quoted "formatting_issues" ++ ": [], "
  ++ quoted "improvements_made" ++ ": [], "
  ++ quoted "improved_answer" ++ ": " ++ quoted "Go to Settings." ++ "}" ++ nl.

Definition post : string := nl ++ "I hope this helps.".

End Block.

(** ** The page

    [Home.py]: what [main] renders, as the list of the calls it makes. *)

Inductive ui_call : Type :=
| Header (text : string)
| Write (label : string) (value : pyval).

(** [v[key]] for a string [key]. *)
Definition py_getitem (v : pyval) (key : string) : exn + pyval :=
  match v with
  | PDict d =>
      match dict_lookup d key with
      | Some x => inr x
      | None => inl (OtherError "KeyError" key)
      end
  | PStr _ => inl (TypeError "string indices must be integers, not 'str'")
  | PList _ =>
      inl (TypeError "list indices must be integers or slices, not str")
  | PNone => inl (TypeError "'NoneType' object is not subscriptable")
  | PBool _ => inl (TypeError "'bool' object is not subscriptable")
  | PInt _ => inl (TypeError "'int' object is not subscriptable")
  | PFloat _ => inl (TypeError "'float' object is not subscriptable")
  end.

(** What [main] does with the result of [process_answer]: the calls made,
    and how it ends. *)
Definition render (result : pydict) : list ui_call * (exn + unit) :=
  let final := ebind (py_getitem (PDict result) "final_answer") in
  let out1 := [Header "Final Answer"] in
  match final (fun f => py_getitem f "final_answer") with
  | inl e => (out1, inl e)
  | inr v1 =>
      let out2 :=
        (out1 ++ [Write "Final Answer:" v1; Header "Summary of Changes"])%list
      in
      match final (fun f => py_getitem f "adequacy_assessment") with
      | inl e => (out2, inl e)
      | inr v2 =>
          let out3 := (out2 ++ [Write "Adequacy Issues:" v2])%list in
          match final (fun f =>
                         ebind (py_getitem f "format_assessment")
                               (fun a => py_getitem a "formatting_issues"))
          with
          | inl e => (out3, inl e)
          | inr v3 =>
              ((out3 ++ [Write "Formatting Improvements:" v3])%list, inr tt)
          end
      end
  end.

(** ** The nodes of the pipeline *)

Section Pipeline.
Import PyStr.
Open Scope py_scope.

(** [os.environ.get("ANTHROPIC_API_KEY")] *)
Variable environ_api_key : option string.

(** [client.messages.create(...).content[0].text]: the text of the first
    block of the reply, or the exception raised on the way.  The reply may
    depend on the requests issued before. *)
Variable messages_create : Client -> list Request -> Request -> exn + string.

(** [json.loads]: the decoded value, or the exception it raises
    ([JSONDecodeError] on a document that is not JSON). *)
Variable json_loads : string -> exn + pyval.

(** [str(v)] for a value [v] that is not a [str]. *)
Variable str_of_value : pyval -> string.

(** What the body of [load_formatting_examples_from_csv] produces from the
    file [faff_formatting_examples.csv]. *)
Variable read_csv_examples : exn + list FormattingExample.

(** [str(v)], as an f-string renders [{v}]. *)
Definition py_str (v : pyval) : string :=
  match v with
  | PStr s => s
  | _ => str_of_value v
  end.

Definition lines (l : list string) : string := String.concat nl l.

Definition claude_model : string := "claude-3-7-sonnet-20250219".

Definition get_claude_client (key : option string) : exn + Client :=
  let key := match key with
             | Some k => if str_truthy k then Some k else environ_api_key
             | None => environ_api_key
             end in
  match key with
  | Some k =>
      if str_truthy k then inr {| api_key := k |}
      else inl (ValueError
        "API key must be provided or set as ANTHROPIC_API_KEY environment variable")
  | None =>
      inl (ValueError
        "API key must be provided or set as ANTHROPIC_API_KEY environment variable")
  end.

(** [if not client: client = get_claude_client()] *)
Definition ensure_client (client : option Client) : M Client :=
  match client with
  | Some c => ret c
  | None => lift (get_claude_client None)
  end.

(** One call of the service, recorded in the log. *)
Definition create (client : Client) (req : Request) : M string :=
  fun log => ((log ++ [req])%list, messages_create client log req).

(** A call of a function defined with no parameter: Python binds the
    arguments before it runs the body, and raises [TypeError] when there is a
    positional argument to bind. *)
Definition call_nullary {A : Type} (name : string) (body : exn + A)
  (args : list pyval) : exn + A :=
  match args with
  | [] => body
  | [_] =>
      inl (TypeError
             (name ++ "() takes 0 positional arguments but 1 was given"))
  | _ =>
      inl (TypeError
             (name ++ "() takes 0 positional arguments but "
              ++ str_of_nat (List.length args) ++ " were given"))
  end.

(** [def load_formatting_examples_from_csv() -> List[Dict]], a function with
    no parameter. *)
Definition load_formatting_examples_from_csv
  : exn + list FormattingExample :=
  read_csv_examples.

(** *** Node 1: fix_grammar *)

Definition grammar_prompt (st : AgentState) : string :=
  lines [
    "I need you to fix ONLY critical grammar issues in the following answer.";
    "Make the absolute minimum changes necessary - only fix clear grammatical errors.";
    "Do not:";
    "- Change word choice unless absolutely necessary for grammar";
    "- Alter sentence structure";
    "- Modify punctuation unless it's grammatically incorrect";
    "- Change the style, tone, formality level, or voice";
    "- Add or remove information";
    EmptyString;
    "The text should read almost identically to the original, just with grammar errors fixed.";
    "Return ONLY the corrected text with no additional explanations.";
    EmptyString;
    "Original answer: " ++ proposed_answer st ].

Definition grammar_request (st : AgentState) : Request :=
  {| model := claude_model;
     max_tokens := 1024;
     temperature := FDec false 0 0;
     system := "You are a conservative grammar editor. Your job is to make the absolute minimum changes necessary to fix only clear grammatical errors. Preserve the author's original words, style and voice completely.";
     prompt := grammar_prompt st |}.

Definition fix_grammar (st : AgentState) (client : option Client) : M pydict :=
  c <- ensure_client client ;;
  text <- create c (grammar_request st) ;;
  ret [("grammar_fixed_answer", PStr text)].

(** *** The structured-response parser of nodes 2 and 3 *)

Definition fence : string := "```".
Definition fence_json : string := "```json".

(** The [if]/[elif]/[else] that picks [json_content]. *)
Definition json_content (response_text : string) : exn + string :=
  if contains fence_json response_text then
    a <~ getitem (split fence_json response_text) 1 ;;
    b <~ getitem (split fence a) 0 ;;
    inr (strip b)
  else if contains fence response_text then
    a <~ getitem (split fence response_text) 1 ;;
    b <~ getitem (split fence a) 0 ;;
    inr (strip b)
  else inr (strip response_text).

(** The [try] block with its [except json.JSONDecodeError] handler. *)
Definition parse_response (response_text : string) (fallback : pydict)
  : exn + pyval :=
  match (content <~ json_content response_text ;; json_loads content) with
  | inr v => inr v
  | inl JSONDecodeError => inr (PDict fallback)
  | inl e => inl e
  end.

(** *** Node 2: check_adequacy *)

Definition adequacy_input (st : AgentState) : string :=
  opt_str_or (grammar_fixed_answer st) (proposed_answer st).

Definition adequacy_prompt (st : AgentState) : string :=
  lines [
    "Evaluate if the proposed answer adequately and explicitly addresses the user's query.";
    EmptyString;
    "User Query: " ++ user_query st;
    EmptyString;
    "Proposed Answer: " ++ adequacy_input st;
    EmptyString;
    "Your task:";
    "1. Identify if the answer fully addresses all aspects of the user's query";
    "2. Check if any important information is missing";
    "3. Note if the answer contains irrelevant information";
    "4. Suggest specific improvements if needed";
    EmptyString;
    "Return your evaluation as JSON with these fields:";
    "- " ++ quoted "adequately_addressed" ++ ": boolean";
    "- " ++ quoted "missing_aspects" ++ ": list of strings (empty if none)";
    "- " ++ quoted "suggestions" ++ ": list of specific improvements (empty if none)";
    "- " ++ quoted "improved_answer" ++ ": the answer with your suggested improvements incorporated (if any, otherwise return the original)";
    EmptyString ].

Definition adequacy_request (st : AgentState) : Request :=
  {| model := claude_model;
     max_tokens := 2048;
     temperature := FDec false 0 0;
     system := "You are an expert at evaluating customer service responses. Be thorough but practical in your assessment. Only suggest changes when truly necessary to address the user's query.";
     prompt := adequacy_prompt st |}.

Definition adequacy_fallback (st : AgentState) : pydict :=
  [("adequately_addressed", PBool false);
   ("missing_aspects", PList [PStr "Unable to parse assessment"]);
   ("suggestions", PList [PStr "Error processing assessment"]);
   ("improved_answer",
    PStr (opt_str_or (grammar_fixed_answer st) (proposed_answer st)))].

Definition parse_adequacy (st : AgentState) (response_text : string)
  : exn + pyval :=
  parse_response response_text (adequacy_fallback st).

Definition check_adequacy (st : AgentState) (client : option Client)
  : M pydict :=
  c <- ensure_client client ;;
  response_text <- create c (adequacy_request st) ;;
  adequacy <- lift (parse_adequacy st response_text) ;;
  ret [("adequacy_assessment", adequacy)].

(** *** Node 3: improve_formatting *)

(** [a.get("improved_answer", "") if a else ""] *)
Definition improved_answer_of (a : option pydict) : pyval :=
  if opt_dict_truthy a then
    match a with
    | Some d => dict_get d "improved_answer" (PStr EmptyString)
    | None => PStr EmptyString
    end
  else PStr EmptyString.

Definition current_answer (st : AgentState) : pyval :=
  let current := improved_answer_of (adequacy_assessment st) in
  if negb (py_truthy current)
  then PStr (opt_str_or (grammar_fixed_answer st) (proposed_answer st))
  else current.

(** [formatting_examples[:5]] *)
Definition examples_to_use (formatting_examples : list FormattingExample)
  : list FormattingExample :=
  firstn 5 formatting_examples.

(** What one turn of the loop appends to [examples_text]. *)
Definition example_text (i : nat) (example : FormattingExample) : string :=
  (nl ++ "Example " ++ str_of_nat (i + 1) ++ ":" ++ nl)
  ++ ("User Query: " ++ task example ++ nl)
  ++ ("Bad format: " ++ bad_format example ++ nl)
  ++ ("Good format: " ++ good_format example ++ nl)
  ++ ("Changes made: " ++ explanation example ++ nl).

(** The loop over [enumerate(examples_to_use)], from index [i]. *)
Fixpoint examples_loop (i : nat) (examples : list FormattingExample)
  (examples_text : string) : string :=
  match examples with
  | [] => examples_text
  | example :: rest =>
      examples_loop (S i) rest (examples_text ++ example_text i example)
  end.

Definition examples_text (formatting_examples : list FormattingExample)
  : string :=
  examples_loop 0 (examples_to_use formatting_examples) EmptyString.

Definition formatting_prompt (st : AgentState)
  (formatting_examples : list FormattingExample) : string :=
  lines [
    "Improve the formatting of this customer service answer to make it more readable and user-friendly.";
    "Keep the content largely the same, but apply formatting best practices based on these examples:";
    EmptyString;
    examples_text formatting_examples;
    EmptyString;
    "Current Task: " ++ user_query st;
    "Current Answer:";
    py_str (current_answer st);
    EmptyString;
    "Return your assessment as JSON with these fields:";
    "- " ++ quoted "formatting_issues" ++ ": list of formatting issues identified";
    "- " ++ quoted "improvements_made" ++ ": list of improvements you made";
    "- " ++ quoted "improved_answer" ++ ": the answer with better formatting";
    EmptyString ].

Definition formatting_request (st : AgentState)
  (formatting_examples : list FormattingExample) : Request :=
  {| model := claude_model;
     max_tokens := 2048;
     temperature := FDec false 0 0;
     system := "You are an expert at formatting customer service responses for maximum readability and clarity. Apply the patterns from good examples while preserving the meaning and content of the answer.";
     prompt := formatting_prompt st formatting_examples |}.

Definition format_fallback (st : AgentState) : pydict :=
  [("formatting_issues", PList [PStr "Unable to parse assessment"]);
   ("improvements_made", PList [PStr "Error processing formatting"]);
   ("improved_answer", current_answer st)].

Definition parse_format (st : AgentState) (response_text : string)
  : exn + pyval :=
  parse_response response_text (format_fallback st).

Definition improve_formatting (st : AgentState)
  (formatting_examples : list FormattingExample) (client : option Client)
  : M pydict :=
  c <- ensure_client client ;;
  response_text <- create c (formatting_request st formatting_examples) ;;
  assessment <- lift (parse_format st response_text) ;;
  ret [("format_assessment", assessment)].

(** *** Node 4: create_final_answer *)

Definition formatted_answer (st : AgentState) : pyval :=
  let formatted := improved_answer_of (format_assessment st) in
  if negb (py_truthy formatted) then
    let adequacy_answer := improved_answer_of (adequacy_assessment st) in
    if py_truthy adequacy_answer then adequacy_answer
    else PStr (opt_str_or (grammar_fixed_answer st) (proposed_answer st))
  else formatted.

Definition adequacy_changes (st : AgentState) : pyval :=
  match adequacy_assessment st with
  | Some d =>
      if opt_dict_truthy (Some d)
         && negb (py_truthy (dict_get d "adequately_addressed" (PBool true)))
      then dict_get d "suggestions" (PList [])
      else PList []
  | None => PList []
  end.

Definition formatting_changes (st : AgentState) : pyval :=
  match format_assessment st with
  | Some d =>
      if opt_dict_truthy (Some d)
      then dict_get d "improvements_made" (PList [])
      else PList []
  | None => PList []
  end.

(** [state.grammar_fixed_answer != state.proposed_answer
     if state.grammar_fixed_answer else False] *)
Definition grammar_changed (fixed : option string) (proposed : string) : bool :=
  match fixed with
  | Some s => if str_truthy s then negb (String.eqb s proposed) else false
  | None => false
  end.

Definition changes_summary (st : AgentState) : pydict :=
  [("grammar_changed",
    PBool (grammar_changed (grammar_fixed_answer st) (proposed_answer st)));
   ("adequacy_issues", adequacy_changes st);
   ("formatting_improvements", formatting_changes st)].

Definition create_final_answer (st : AgentState) (client : option Client)
  : M pydict :=
  c <- ensure_client client ;;
  ret [("final_answer", formatted_answer st);
       ("changes_summary", PDict (changes_summary st))].

(** *** The graph and the entry point *)

(** One node of the graph that has a successor: the node runs, and its
    result makes the state of the next node. *)
Definition run_node (node : AgentState -> M pydict) (st : AgentState)
  : M AgentState :=
  upd <- node st ;;
  lift (update_state st upd).

(** [graph.invoke]: entry point [fix_grammar], then the edges to
    [check_adequacy], [improve_formatting], [create_final] and [END].  The
    result of the last node is written to the channels and no node reads them
    after it: the values of the channels, a [dict], are what is returned. *)
Definition invoke (client : Client)
  (formatting_examples : list FormattingExample) (st : AgentState)
  : M pydict :=
  st1 <- run_node (fun s => fix_grammar s (Some client)) st ;;
  st2 <- run_node (fun s => check_adequacy s (Some client)) st1 ;;
  st3 <- run_node
           (fun s => improve_formatting s formatting_examples (Some client))
           st2 ;;
  upd <- create_final_answer st3 (Some client) ;;
  ret (write_channels (state_values st3) upd).

(** [build_answer_quality_graph]: the client is made once, then the graph. *)
Definition build_answer_quality_graph
  (formatting_examples : list FormattingExample)
  : exn + (AgentState -> M pydict) :=
  client <~ get_claude_client None ;;
  inr (invoke client formatting_examples).

Definition initial_state (query answer : string) : AgentState :=
  {| user_query := query;
     proposed_answer := answer;
     grammar_fixed_answer := None;
     adequacy_assessment := None;
     format_assessment := None;
     final_answer := None |}.

(** The entries of the returned dict are evaluated in their order, so that
    [result.final_answer] is the first attribute read of [result]. *)
Definition process_answer (query answer : string)
  (formatting_examples : option (list FormattingExample))
  (csv_path : option string) : M pydict :=
  formatting_examples <-
    match formatting_examples with
    | Some l => ret l
    | None =>
        match csv_path with
        | None =>
            raise (ValueError
              "Either formatting_examples or csv_path must be provided")
        | Some path =>
            lift (call_nullary "load_formatting_examples_from_csv"
                    load_formatting_examples_from_csv [PStr path])
        end
    end ;;
  graph <- lift (build_answer_quality_graph formatting_examples) ;;
  result <- graph (initial_state query answer) ;;
  final <- lift (mapping_getattr result "final_answer") ;;
  fixed <- lift (mapping_getattr result "grammar_fixed_answer") ;;
  adequacy <- lift (mapping_getattr result "adequacy_assessment") ;;
  format <- lift (mapping_getattr result "format_assessment") ;;
  ret [("original_answer", PStr answer);
       ("final_answer", final);
       ("analysis",
        PDict
          [("grammar_fixed", PBool (grammar_fixed_of fixed answer));
           ("adequacy_assessment", adequacy);
           ("format_assessment", format)])].

(** *** The page's [main]

    [text_input] and [text_area] are what the two fields hold and [button]
    tells whether the button was pressed; the result is the log of requests,
    the calls rendered, and how [main] ends. *)
Definition main (text_input text_area : string) (button : bool)
  : list Request -> list Request * (list ui_call * (exn + unit)) :=
  fun log =>
    if button then
      match process_answer text_input text_area None None log with
      | (log', inr result) => (log', render result)
      | (log', inl e) => (log', ([], inl e))
      end
    else (log, ([], inr tt)).

(** The text the parser decodes, by the fence the response contains. *)
Definition chosen_content (response_text : string) : string :=
  strip
    (if contains fence_json response_text
     then before fence (before fence_json (after fence_json response_text))
     else if contains fence response_text
          then before fence (after fence response_text)
          else response_text).

(** *** The specification's wording

    The readings of the specification that the theorems below compare with
    the code: every extraction strategy tried until one parses, and a
    grammar-fixed answer used whenever it is present. *)

Definition spec_candidates (response_text : string) : list string :=
  ((if contains fence_json response_text
    then [strip (before fence (after fence_json response_text))] else [])
   ++ (if contains fence response_text
       then [strip (before fence (after fence response_text))] else [])
   ++ [strip response_text])%list.

Fixpoint spec_first_parseable (candidates : list string) : option pyval :=
  match candidates with
  | [] => None
  | c :: rest =>
      match json_loads c with
      | inr v => Some v
      | inl _ => spec_first_parseable rest
      end
  end.

Definition spec_parse_response (response_text : string) (fallback : pydict)
  : pyval :=
  match spec_first_parseable (spec_candidates response_text) with
  | Some v => v
  | None => PDict fallback
  end.

(** [grammar_fixed_answer] if present, else [proposed_answer]. *)
Definition spec_grammar_or_proposed (st : AgentState) : string :=
  match grammar_fixed_answer st with
  | Some s => s
  | None => proposed_answer st
  end.

(** The value of [improved_answer] in an assessment, when the assessment
    and the field are present and the value is non-empty. *)
Definition present_nonempty (a : option pydict) : option pyval :=
  match a with
  | Some d =>
      match dict_lookup d "improved_answer" with
      | Some v => if py_truthy v then Some v else None
      | None => None
      end
  | None => None
  end.

Definition spec_adequacy_sentinel (st : AgentState) : pydict :=
  [("adequately_addressed", PBool false);
   ("missing_aspects", PList [PStr "Unable to parse assessment"]);
   ("suggestions", PList [PStr "Error processing assessment"]);
   ("improved_answer", PStr (spec_grammar_or_proposed st))].

Definition spec_grammar_changed (st : AgentState) : bool :=
  match grammar_fixed_answer st with
  | Some s => negb (String.eqb s (proposed_answer st))
  | None => false
  end.

Definition spec_current_answer (st : AgentState) : pyval :=
  match present_nonempty (adequacy_assessment st) with
  | Some v => v
  | None => PStr (spec_grammar_or_proposed st)
  end.

Definition spec_final_answer (st : AgentState) : pyval :=
  match present_nonempty (format_assessment st) with
  | Some v => v
  | None => spec_current_answer st
  end.

(** The two configuration errors of the specification: a missing example
    source and a missing credential. *)
Definition missing_examples_error : exn :=
  ValueError "Either formatting_examples or csv_path must be provided".

Definition missing_credential_error : exn :=
  ValueError
    "API key must be provided or set as ANTHROPIC_API_KEY environment variable".

Definition configuration_error (e : exn) : Prop :=
  e = missing_examples_error \/ e = missing_credential_error.

(** * Properties *)

Example strip_ex :
  PyStr.split "ab" "xabyab" = ["x"; "y"; EmptyString]
  /\ PyStr.split "```" "a```json b```c" = ["a"; "json b"; "c"]
  /\ PyStr.strip ("  a b " ++ PyStr.bytes [194; 160; 10]) = "a b"
  /\ PyStr.strip "   " = EmptyString
  /\ PyStr.str_of_nat 12 = "12".
Proof. repeat split; reflexivity. Qed.

Example truthy_ex :
  py_truthy (PFloat (FDec false 1 (-400))) = false
  /\ py_truthy (PFloat (FDec false 5 (-324))) = true
  /\ py_truthy (PFloat (FDec true 0 3)) = false
  /\ py_truthy (PStr " ") = true
  /\ py_truthy (PDict []) = false
  /\ opt_str_or (Some EmptyString) "b" = "b"
  /\ opt_str_or (Some "a") "b" = "a".
Proof. repeat split; vm_compute; reflexivity. Qed.

Example loads_ex :
  Json.loads ("{" ++ PyStr.quoted "a" ++ ": [1, -2.50e1, true, null, "
              ++ PyStr.quoted "x\n\u00e9" ++ "], "
              ++ PyStr.quoted "a" ++ " : {} } ")
  = inr (PDict [("a", PDict [])])
  /\ Json.loads ("[1, " ++ PyStr.quoted "b\n" ++ ", 2.5, 0e0]")
     = inr (PList [PInt 1; PStr ("b" ++ PyStr.nl);
                   PFloat (FDec false 25 (-1)); PFloat (FDec false 0 0)])
  /\ Json.loads "I cannot help with that." = inl JSONDecodeError
  /\ Json.loads "[1,]" = inl JSONDecodeError
  /\ Json.loads "01" = inl JSONDecodeError
  /\ Json.loads EmptyString = inl JSONDecodeError
  /\ Json.loads " -0 " = inr (PInt 0)
  /\ Json.loads (PyStr.quoted "\u00e9\ud83d\ude00")
     = inr (PStr (PyStr.bytes [195; 169; 240; 159; 152; 128])).
Proof. repeat split; vm_compute; reflexivity. Qed.

(** ** Facts about [split] *)

Lemma startswith_length (p s : string) :
  startswith p s = true -> String.length p <= String.length s.
Proof.
  revert s; induction p as [|a p IH]; intros [|b s] H; simpl in *;
    try lia; try discriminate.
  apply andb_true_iff in H as [_ H]. apply IH in H. lia.
Qed.

Lemma split_from_skip (sep : string) (k : nat) (s : string) :
  k <= String.length s -> split_from sep s k = split sep (drop k s).
Proof.
  revert k; induction s as [|c s IH]; intros k Hk; simpl in *.
  - destruct k; [reflexivity | lia].
  - destruct k as [|k]; [reflexivity|]. apply IH. lia.
Qed.

Lemma split_unfold (sep s : string) :
  sep <> EmptyString ->
  split sep s =
  if contains sep s then before sep s :: split sep (after sep s) else [s].
Proof.
  intros Hsep. induction s as [|c s IH].
  - destruct sep; [congruence | reflexivity].
  - unfold split in *. cbn [split_from contains before after].
    destruct (startswith sep (String c s)) eqn:Hp.
    + cbn [orb]. f_equal.
      pose proof (startswith_length _ _ Hp) as Hl.
      destruct sep as [|a sep]; [congruence|].
      cbn [String.length] in *. cbn [drop].
      rewrite Nat.sub_succ, Nat.sub_0_r.
      apply split_from_skip. lia.
    + cbn [orb]. rewrite IH. destruct (contains sep s); reflexivity.
Qed.

Lemma before_without (sep s : string) :
  contains sep s = false -> before sep s = s.
Proof.
  induction s as [|c s IH]; cbn [contains before]; intros H;
    apply orb_false_iff in H as [H1 H2]; rewrite H1; [reflexivity|].
  now rewrite IH.
Qed.

Lemma split_first (sep s : string) :
  sep <> EmptyString -> getitem (split sep s) 0 = inr (before sep s).
Proof.
  intros Hsep. rewrite split_unfold by assumption.
  destruct (contains sep s) eqn:Hc; [reflexivity|].
  now rewrite before_without.
Qed.

Lemma split_second (sep s : string) :
  sep <> EmptyString -> contains sep s = true ->
  getitem (split sep s) 1 = inr (before sep (after sep s)).
Proof.
  intros Hsep Hc. rewrite split_unfold, Hc by assumption.
  change (getitem (?x :: ?l) 1) with (getitem l 0).
  now apply split_first.
Qed.


Lemma startswith_before (sep p s : string) :
  startswith p (before sep s) = true -> startswith p s = true.
Proof.
  revert p; induction s as [|c s IH]; intros p; cbn [before].
  - destruct (startswith sep EmptyString); auto.
  - destruct (startswith sep (String c s)).
    + destruct p; [reflexivity | discriminate].
    + destruct p as [|a p]; [reflexivity|]. cbn [startswith].
      intros H. apply andb_true_iff in H as [Ha Hp].
      rewrite Ha. now apply IH.
Qed.

Lemma before_has_no_sep (sep s : string) :
  sep <> EmptyString -> contains sep (before sep s) = false.
Proof.
  intros Hsep. induction s as [|c s IH]; cbn [before].
  - destruct sep; [congruence|]. reflexivity.
  - destruct (startswith sep (String c s)) eqn:Hp.
    + destruct sep; [congruence | reflexivity].
    + cbn [contains]. rewrite IH, orb_false_r.
      destruct (startswith sep (String c (before sep s))) eqn:Hq;
        [|reflexivity].
      assert (Hr : startswith sep (before sep (String c s)) = true)
        by (cbn [before]; rewrite Hp; exact Hq).
      apply startswith_before in Hr. congruence.
Qed.

Lemma before_before (sep s : string) :
  sep <> EmptyString -> before sep (before sep s) = before sep s.
Proof. intros Hsep. apply before_without. now apply before_has_no_sep. Qed.

(** ** The structured-response parser *)

Lemma json_content_chosen (response_text : string) :
  json_content response_text = inr (chosen_content response_text).
Proof.
  unfold json_content, chosen_content.
  assert (Hf : fence <> EmptyString) by discriminate.
  assert (Hj : fence_json <> EmptyString) by discriminate.
  destruct (contains fence_json response_text) eqn:Ha.
  - rewrite split_second by assumption. cbn [ebind].
    rewrite split_first by assumption. reflexivity.
  - destruct (contains fence response_text) eqn:Hb; [|reflexivity].
    rewrite split_second by assumption. cbn [ebind].
    rewrite split_first by assumption. cbn [ebind].
    now rewrite before_before.
Qed.

Lemma parse_response_chosen (response_text : string) (fallback : pydict) :
  parse_response response_text fallback =
  match json_loads (chosen_content response_text) with
  | inr v => inr v
  | inl JSONDecodeError => inr (PDict fallback)
  | inl e => inl e
  end.
Proof.
  unfold parse_response. rewrite json_content_chosen. reflexivity.
Qed.

(** C1, as amended: the parser of the adequacy and formatting stages applies
    exactly one extraction strategy, chosen in order by the fence the response
    contains: (a) when it contains a json-labelled fence, the piece after the
    first such fence (up to the next one), cut at its first plain fence; (b)
    else, when it contains a plain fence, the text between the first plain
    fence and the next; (c) else the whole text.  The chosen text is trimmed
    and decoded; when it is not parseable the stage's fallback record is the
    result, and no other strategy is tried. *)
Theorem parser_applies_one_strategy
  (st : AgentState) (response_text : string) :
  let content :=
    strip
      (if contains fence_json response_text
       then before fence (before fence_json (after fence_json response_text))
       else if contains fence response_text
            then before fence (after fence response_text)
            else response_text) in
  json_content response_text = inr content
  /\ parse_adequacy st response_text =
     match json_loads content with
     | inr v => inr v
     | inl JSONDecodeError => inr (PDict (adequacy_fallback st))
     | inl e => inl e
     end
  /\ parse_format st response_text =
     match json_loads content with
     | inr v => inr v
     | inl JSONDecodeError => inr (PDict (format_fallback st))
     | inl e => inl e
     end.
Proof.
  cbv zeta. fold (chosen_content response_text).
  split; [apply json_content_chosen|].
  split; apply parse_response_chosen.
Qed.


(** ** The nodes, run with a client *)

Lemma fix_grammar_run (st : AgentState) (client : Client) (log : list Request) :
  fix_grammar st (Some client) log =
  ((log ++ [grammar_request st])%list,
   text <~ messages_create client log (grammar_request st) ;;
   inr [("grammar_fixed_answer", PStr text)]).
Proof.
  unfold fix_grammar, bind, ensure_client, ret, create. cbn.
  destruct (messages_create client log (grammar_request st)); reflexivity.
Qed.

Lemma check_adequacy_run (st : AgentState) (client : Client)
  (log : list Request) :
  check_adequacy st (Some client) log =
  ((log ++ [adequacy_request st])%list,
   text <~ messages_create client log (adequacy_request st) ;;
   adequacy <~ parse_adequacy st text ;;
   inr [("adequacy_assessment", adequacy)]).
Proof.
  unfold check_adequacy, bind, ensure_client, ret, create, lift. cbn.
  destruct (messages_create client log (adequacy_request st)) as [e|text];
    [reflexivity|]. cbn.
  destruct (parse_adequacy st text); reflexivity.
Qed.

Lemma improve_formatting_run (st : AgentState)
  (formatting_examples : list FormattingExample) (client : Client)
  (log : list Request) :
  improve_formatting st formatting_examples (Some client) log =
  ((log ++ [formatting_request st formatting_examples])%list,
   text <~ messages_create client log
             (formatting_request st formatting_examples) ;;
   assessment <~ parse_format st text ;;
   inr [("format_assessment", assessment)]).
Proof.
  unfold improve_formatting, bind, ensure_client, ret, create, lift. cbn.
  destruct (messages_create client log
              (formatting_request st formatting_examples)) as [e|text];
    [reflexivity|]. cbn.
  destruct (parse_format st text); reflexivity.
Qed.

Lemma create_final_answer_run (st : AgentState) (client : Client)
  (log : list Request) :
  create_final_answer st (Some client) log =
  (log, inr [("final_answer", formatted_answer st);
             ("changes_summary", PDict (changes_summary st))]).
Proof. reflexivity. Qed.

Lemma run_node_eq (node : AgentState -> M pydict) (st : AgentState)
  (log : list Request) :
  run_node node st log =
  (fst (node st log), upd <~ snd (node st log) ;; update_state st upd).
Proof.
  unfold run_node, bind, lift. destruct (node st log) as [log' [e|upd]];
    reflexivity.
Qed.

Lemma update_grammar (st : AgentState) (text : string) :
  update_state st [("grammar_fixed_answer", PStr text)]
  = inr (with_grammar st text).
Proof. reflexivity. Qed.

Lemma update_adequacy (st : AgentState) (v : pyval) :
  update_state st [("adequacy_assessment", v)]
  = a <~ as_opt_dict "adequacy_assessment" v ;; inr (with_adequacy st a).
Proof.
  cbn. destruct (as_opt_dict "adequacy_assessment" v); reflexivity.
Qed.

Lemma update_format (st : AgentState) (v : pyval) :
  update_state st [("format_assessment", v)]
  = a <~ as_opt_dict "format_assessment" v ;; inr (with_format st a).
Proof.
  cbn. destruct (as_opt_dict "format_assessment" v); reflexivity.
Qed.

Lemma update_final (st : AgentState) (v summary : pyval) :
  update_state st [("final_answer", v); ("changes_summary", summary)]
  = a <~ as_opt_str "final_answer" v ;; inr (with_final st a).
Proof.
  cbn. destruct (as_opt_str "final_answer" v); reflexivity.
Qed.


(** ** Python truth values *)

Lemma opt_str_or_nonempty (o : option string) (b : string) :
  opt_str_or o b =
  match o with
  | Some (String c s) => String c s
  | _ => b
  end.
Proof. destruct o as [[|c s]|]; reflexivity. Qed.

Lemma improved_answer_of_present (a : option pydict) :
  (if py_truthy (improved_answer_of a) then Some (improved_answer_of a)
   else None) = present_nonempty a.
Proof.
  unfold improved_answer_of, present_nonempty, dict_get.
  destruct a as [[|kv d]|]; try reflexivity.
  cbn [opt_dict_truthy].
  destruct (dict_lookup (kv :: d) "improved_answer"); reflexivity.
Qed.

Lemma current_answer_eq (st : AgentState) :
  current_answer st =
  match present_nonempty (adequacy_assessment st) with
  | Some v => v
  | None =>
      PStr match grammar_fixed_answer st with
           | Some (String c s) => String c s
           | _ => proposed_answer st
           end
  end.
Proof.
  unfold current_answer. cbv zeta.
  rewrite <- improved_answer_of_present, opt_str_or_nonempty.
  destruct (py_truthy (improved_answer_of (adequacy_assessment st)));
    reflexivity.
Qed.

Lemma formatted_answer_eq (st : AgentState) :
  formatted_answer st =
  match present_nonempty (format_assessment st) with
  | Some v => v
  | None =>
      match present_nonempty (adequacy_assessment st) with
      | Some v => v
      | None =>
          PStr match grammar_fixed_answer st with
               | Some (String c s) => String c s
               | _ => proposed_answer st
               end
      end
  end.
Proof.
  unfold formatted_answer.
  rewrite <- !improved_answer_of_present, opt_str_or_nonempty.
  destruct (py_truthy (improved_answer_of (format_assessment st)));
    [reflexivity|]. cbn [negb].
  destruct (py_truthy (improved_answer_of (adequacy_assessment st)));
    reflexivity.
Qed.

Lemma present_nonempty_truthy (a : option pydict) (v : pyval) :
  present_nonempty a = Some v -> py_truthy v = true.
Proof.
  unfold present_nonempty. destruct a as [d|]; [|discriminate].
  destruct (dict_lookup d "improved_answer") as [w|]; [|discriminate].
  destruct (py_truthy w) eqn:Hw; [|discriminate]. congruence.
Qed.

Lemma formatted_answer_not_none (st : AgentState) :
  formatted_answer st <> PNone.
Proof.
  rewrite formatted_answer_eq.
  destruct (present_nonempty (format_assessment st)) as [v|] eqn:Hf.
  - apply present_nonempty_truthy in Hf. intros ->. discriminate.
  - destruct (present_nonempty (adequacy_assessment st)) as [v|] eqn:Ha;
      [|discriminate].
    apply present_nonempty_truthy in Ha. intros ->. discriminate.
Qed.

(** ** The adequacy stage *)

(** C2, as amended: when the decoder rejects the text extracted from the
    service's reply with JSONDecodeError, the adequacy parser raises nothing
    and returns exactly the sentinel record, whose improved answer is the
    grammar-fixed answer if that is present and non-empty, else the proposed
    answer; the node stores the sentinel in the state, and the formatting
    stage then issues its request.  Any other exception of the decoder is not
    handled: the parser raises it, and so does the adequacy stage. *)
Theorem unparseable_adequacy_gives_sentinel
  (st : AgentState) (response_text content : string)
  (client : Client) (log : list Request)
  (formatting_examples : list FormattingExample) :
  json_content response_text = inr content ->
  messages_create client log (adequacy_request st) = inr response_text ->
  let sentinel :=
    [("adequately_addressed", PBool false);
     ("missing_aspects", PList [PStr "Unable to parse assessment"]);
     ("suggestions", PList [PStr "Error processing assessment"]);
     ("improved_answer",
      PStr match grammar_fixed_answer st with
           | Some (String c s) => String c s
           | _ => proposed_answer st
           end)] in
  let st' := with_adequacy st (Some sentinel) in
  let log' := (log ++ [adequacy_request st])%list in
  (json_loads content = inl JSONDecodeError ->
   parse_adequacy st response_text = inr (PDict sentinel)
   /\ run_node (fun s => check_adequacy s (Some client)) st log
      = (log', inr st')
   /\ fst (run_node
             (fun s => improve_formatting s formatting_examples (Some client))
             st' log')
      = (log' ++ [formatting_request st' formatting_examples])%list)
  /\ (forall e : exn,
        json_loads content = inl e ->
        e <> JSONDecodeError ->
        parse_adequacy st response_text = inl e
        /\ run_node (fun s => check_adequacy s (Some client)) st log
           = (log', inl e)).
Proof.
  intros Hcontent Hreply sentinel st' log'. split.
  - intros Hloads.
    assert (Hparse : parse_adequacy st response_text = inr (PDict sentinel)).
    { unfold parse_adequacy, parse_response. rewrite Hcontent. cbn [ebind].
      rewrite Hloads. unfold adequacy_fallback, sentinel.
      now rewrite opt_str_or_nonempty. }
    split; [exact Hparse|]. split.
    + rewrite run_node_eq, check_adequacy_run. cbn [fst snd].
      rewrite Hreply. cbn [ebind]. rewrite Hparse. cbn [ebind].
      now rewrite update_adequacy.
    + now rewrite run_node_eq, improve_formatting_run.
  - intros e Hloads Hne.
    assert (Hparse : parse_adequacy st response_text = inl e).
    { unfold parse_adequacy, parse_response. rewrite Hcontent. cbn [ebind].
      rewrite Hloads. destruct e; congruence. }
    split; [exact Hparse|].
    rewrite run_node_eq, check_adequacy_run. cbn [fst snd].
    rewrite Hreply. cbn [ebind]. now rewrite Hparse.
Qed.

(** ** The final synthesis stage *)

(** C3, as amended: grammar_changed of the change summary is true if and only
    if the grammar-fixed answer is present, non-empty and different from the
    proposed answer; it is false otherwise. *)
Theorem grammar_changed_iff_nonempty_and_differs (st : AgentState) :
  exists b : bool,
    dict_lookup (changes_summary st) "grammar_changed" = Some (PBool b)
    /\ (b = true <->
        exists s, grammar_fixed_answer st = Some s
                  /\ s <> EmptyString /\ s <> proposed_answer st).
Proof.
  exists (grammar_changed (grammar_fixed_answer st) (proposed_answer st)).
  split; [reflexivity|]. unfold grammar_changed.
  destruct (grammar_fixed_answer st) as [[|c s]|]; cbn [str_truthy].
  - split; [discriminate|]. intros (s & Hs & Hne & _). congruence.
  - rewrite negb_true_iff, String.eqb_neq. split.
    + intros H. exists (String c s). repeat split; congruence.
    + intros (s' & Hs & _ & Hd). congruence.
  - split; [discriminate|]. intros (s & Hs & _). discriminate.
Qed.

(** C6, as amended: the final synthesis stage sets final_answer to the
    improved answer of the format assessment when that is present and
    non-empty, else to the improved answer of the adequacy assessment when
    that is present and non-empty, else to the grammar-fixed answer when that
    is present and non-empty, else to the proposed answer. *)
Theorem final_answer_chain
  (st : AgentState) (client : Client) (log : list Request) :
  let chain :=
    match present_nonempty (format_assessment st) with
    | Some v => v
    | None =>
        match present_nonempty (adequacy_assessment st) with
        | Some v => v
        | None =>
            PStr match grammar_fixed_answer st with
                 | Some (String c s) => String c s
                 | _ => proposed_answer st
                 end
        end
    end in
  formatted_answer st = chain
  /\ (exists summary,
        create_final_answer st (Some client) log
        = (log, inr [("final_answer", chain); ("changes_summary", summary)]))
  /\ (forall text, chain = PStr text ->
        run_node (fun s => create_final_answer s (Some client)) st log
        = (log, inr (with_final st (Some text)))).
Proof.
  intros chain.
  assert (H : formatted_answer st = chain) by apply formatted_answer_eq.
  split; [exact H|]. split.
  - exists (PDict (changes_summary st)).
    now rewrite create_final_answer_run, H.
  - intros s Hs. rewrite run_node_eq, create_final_answer_run.
    cbn [fst snd ebind]. rewrite update_final, H, Hs. reflexivity.
Qed.



(** ** The formatting stage *)

Lemma append_nil_r (s : string) : s ++ EmptyString = s.
Proof. induction s as [|c s IH]; cbn; [reflexivity | now rewrite IH]. Qed.

Lemma append_assoc (a b c : string) : (a ++ b) ++ c = a ++ (b ++ c).
Proof. induction a as [|x a IH]; cbn; [reflexivity | now rewrite IH]. Qed.

Lemma concat_empty_cons (x : string) (xs : list string) :
  String.concat EmptyString (x :: xs) = x ++ String.concat EmptyString xs.
Proof.
  destruct xs as [|y ys]; cbn [String.concat].
  - now rewrite append_nil_r.
  - reflexivity.
Qed.

(** The loop appends one block of five lines for each example, in their
    order, numbered from [i + 1]. *)
Lemma examples_loop_blocks (l : list FormattingExample) :
  forall (i : nat) (acc : string),
    examples_loop i l acc
    = acc ++ String.concat EmptyString
               (map (fun ne =>
                       nl ++ "Example " ++ str_of_nat (fst ne) ++ ":" ++ nl
                       ++ "User Query: " ++ task (snd ne) ++ nl
                       ++ "Bad format: " ++ bad_format (snd ne) ++ nl
                       ++ "Good format: " ++ good_format (snd ne) ++ nl
                       ++ "Changes made: " ++ explanation (snd ne) ++ nl)
                    (combine (seq (i + 1) (List.length l)) l)).
Proof.
  induction l as [|e l IH]; intros i acc.
  - cbn. now rewrite append_nil_r.
  - cbn [examples_loop List.length seq combine map fst snd].
    rewrite IH, concat_empty_cons, append_assoc.
    do 2 f_equal. unfold example_text.
    now rewrite !append_assoc.
Qed.

(** C8: the formatting stage sends a prompt that holds, between its opening
    sentences and the current task, one block for each of the first five
    formatting examples and for no other, in their original order and
    numbered from 1 (for all of them, in order, when there are fewer than
    five); a block gives the query, the bad format, the good format and the
    explanation of its example.  Given eight examples, the prompt holds the
    blocks of the first five, numbered 1 to 5, and nothing of the other
    three. *)
Theorem first_five_examples
  (st : AgentState) (examples : list FormattingExample)
  (client : Client) (log : list Request)
  (e1 e2 e3 e4 e5 e6 e7 e8 : FormattingExample) :
  let block (n : nat) (e : FormattingExample) : string :=
    nl ++ "Example " ++ str_of_nat n ++ ":" ++ nl
    ++ "User Query: " ++ task e ++ nl
    ++ "Bad format: " ++ bad_format e ++ nl
    ++ "Good format: " ++ good_format e ++ nl
    ++ "Changes made: " ++ explanation e ++ nl in
  let blocks (l : list FormattingExample) : string :=
    String.concat EmptyString
      (map (fun ne => block (fst ne) (snd ne))
           (combine (seq 1 (List.length l)) l)) in
  let prompt_of (l : list FormattingExample) : string :=
    "Improve the formatting of this customer service answer to make it more readable and user-friendly."
    ++ nl
    ++ "Keep the content largely the same, but apply formatting best practices based on these examples:"
    ++ nl ++ nl
    ++ blocks l ++ nl
    ++ nl
    ++ "Current Task: " ++ user_query st ++ nl
    ++ "Current Answer:" ++ nl
    ++ py_str (current_answer st) ++ nl
    ++ nl
    ++ "Return your assessment as JSON with these fields:" ++ nl
    ++ "- " ++ quoted "formatting_issues"
    ++ ": list of formatting issues identified" ++ nl
    ++ "- " ++ quoted "improvements_made"
    ++ ": list of improvements you made" ++ nl
    ++ "- " ++ quoted "improved_answer"
    ++ ": the answer with better formatting" ++ nl in
  examples_to_use examples = firstn 5 examples
  /\ List.length (examples_to_use examples)
     = Nat.min 5 (List.length examples)
  /\ examples_text examples = blocks (firstn 5 examples)
  /\ formatting_prompt st examples = prompt_of (firstn 5 examples)
  /\ (exists request,
        fst (improve_formatting st examples (Some client) log)
        = (log ++ [request])%list
        /\ prompt request = prompt_of (firstn 5 examples))
  /\ formatting_prompt st [e1; e2; e3; e4; e5; e6; e7; e8]
     = prompt_of [e1; e2; e3; e4; e5]
  /\ blocks [e1; e2; e3; e4; e5]
     = block 1 e1 ++ block 2 e2 ++ block 3 e3 ++ block 4 e4 ++ block 5 e5.
Proof.
  intros block blocks prompt_of.
  assert (Htext : forall l, examples_text l = blocks (firstn 5 l)).
  { intros l. unfold examples_text, examples_to_use.
    now rewrite examples_loop_blocks. }
  assert (Hprompt : forall l,
            formatting_prompt st l = prompt_of (firstn 5 l)).
  { intros l. unfold formatting_prompt, lines, prompt_of.
    rewrite Htext. cbn [String.concat]. now rewrite !append_assoc. }
  split; [reflexivity|]. split; [apply length_firstn|].
  split; [apply Htext|]. split; [apply Hprompt|]. split.
  - exists (formatting_request st examples).
    split; [now rewrite improve_formatting_run | apply Hprompt].
  - split; [apply Hprompt|].
    unfold blocks. cbn [List.length seq combine map fst snd String.concat].
    reflexivity.
Qed.

(** A line of a text and the line after it, between what comes before and
    what comes after. *)
Lemma lines_middle (pre : list string) (a x : string) (post : list string) :
  post <> [] ->
  exists head tail,
    lines (pre ++ a :: x :: post)%list = head ++ a ++ nl ++ x ++ nl ++ tail.
Proof.
  intros Hpost. induction pre as [|p pre IH].
  - exists EmptyString, (lines post).
    destruct post as [|q post]; [congruence | reflexivity].
  - destruct IH as (head & tail & IH).
    exists (p ++ nl ++ head), tail.
    unfold lines in *. cbn [app].
    change (String.concat nl (p :: ?l)) with
      (match l with [] => p | _ :: _ => p ++ nl ++ String.concat nl l end).
    destruct (pre ++ a :: x :: post)%list eqn:E.
    + destruct pre; discriminate.
    + rewrite IH, !append_assoc. reflexivity.
Qed.

(** C5, as amended: the current answer that the formatting stage puts in its
    request is the improved answer of the adequacy assessment when that is
    present and non-empty, else the grammar-fixed answer when that is present
    and non-empty, else the proposed answer; it is not the empty string when
    one of these upstream values is non-empty. *)
Theorem current_answer_chain
  (st : AgentState) (examples : list FormattingExample)
  (client : Client) (log : list Request) :
  let chain :=
    match present_nonempty (adequacy_assessment st) with
    | Some v => v
    | None =>
        PStr match grammar_fixed_answer st with
             | Some (String c s) => String c s
             | _ => proposed_answer st
             end
    end in
  current_answer st = chain
  /\ ((present_nonempty (adequacy_assessment st) <> None
       \/ (exists s, grammar_fixed_answer st = Some s /\ s <> EmptyString)
       \/ proposed_answer st <> EmptyString) ->
      current_answer st <> PStr EmptyString)
  /\ fst (improve_formatting st examples (Some client) log)
     = (log ++ [formatting_request st examples])%list
  /\ exists head tail,
       prompt (formatting_request st examples)
       = head ++ "Current Answer:" ++ nl ++ py_str chain ++ nl ++ tail.
Proof.
  intros chain.
  assert (H : current_answer st = chain) by apply current_answer_eq.
  split; [exact H|]. split; [|split].
  - rewrite H. unfold chain, present_nonempty.
    intros Hup Heq.
    destruct (adequacy_assessment st) as [d|].
    + destruct (dict_lookup d "improved_answer") as [v|].
      * destruct (py_truthy v) eqn:Hv.
        -- subst v. discriminate.
        -- destruct (grammar_fixed_answer st) as [[|c s]|];
             try discriminate; injection Heq as Heq;
             destruct Hup as [Hup|[(s' & Hs & Hne)|Hup]]; congruence.
      * destruct (grammar_fixed_answer st) as [[|c s]|];
          try discriminate; injection Heq as Heq;
          destruct Hup as [Hup|[(s' & Hs & Hne)|Hup]]; congruence.
    + destruct (grammar_fixed_answer st) as [[|c s]|];
        try discriminate; injection Heq as Heq;
        destruct Hup as [Hup|[(s' & Hs & Hne)|Hup]]; congruence.
  - now rewrite improve_formatting_run.
  - cbn [prompt formatting_request]. unfold formatting_prompt.
    rewrite H.
    apply (lines_middle [_; _; _; _; _; _]). discriminate.
Qed.


(** ** The graph and the entry point *)

(** [graph.invoke], node by node. *)
Lemma invoke_eq (client : Client) (examples : list FormattingExample)
  (st : AgentState) (log : list Request) :
  invoke client examples st log =
  let log1 := (log ++ [grammar_request st])%list in
  match messages_create client log (grammar_request st) with
  | inl e => (log1, inl e)
  | inr text1 =>
      let st1 := with_grammar st text1 in
      let log2 := (log1 ++ [adequacy_request st1])%list in
      match (text <~ messages_create client log1 (adequacy_request st1) ;;
             v <~ parse_adequacy st1 text ;;
             as_opt_dict "adequacy_assessment" v) with
      | inl e => (log2, inl e)
      | inr a =>
          let st2 := with_adequacy st1 a in
          let log3 := (log2 ++ [formatting_request st2 examples])%list in
          match (text <~ messages_create client log2
                           (formatting_request st2 examples) ;;
                 v <~ parse_format st2 text ;;
                 as_opt_dict "format_assessment" v) with
          | inl e => (log3, inl e)
          | inr f =>
              let st3 := with_format st2 f in
              (log3,
               inr (write_channels (state_values st3)
                      [("final_answer", formatted_answer st3);
                       ("changes_summary", PDict (changes_summary st3))]))
          end
      end
  end.
Proof.
  cbv zeta. unfold invoke.
  unfold bind at 1. rewrite run_node_eq, fix_grammar_run. cbn [fst snd].
  destruct (messages_create client log (grammar_request st)) as [e|text1];
    [reflexivity|].
  cbn [ebind]. rewrite update_grammar.
  unfold bind at 1. rewrite run_node_eq, check_adequacy_run. cbn [fst snd].
  destruct (messages_create client _ (adequacy_request _)) as [e|text2];
    [reflexivity|].
  cbn [ebind].
  destruct (parse_adequacy (with_grammar st text1) text2) as [e|v];
    [reflexivity|].
  cbn [ebind]. rewrite update_adequacy.
  destruct (as_opt_dict "adequacy_assessment" v) as [e|a]; [reflexivity|].
  cbn [ebind].
  unfold bind at 1. rewrite run_node_eq, improve_formatting_run.
  cbn [fst snd].
  destruct (messages_create client _ (formatting_request _ _)) as [e|text3];
    [reflexivity|].
  cbn [ebind].
  destruct (parse_format _ text3) as [e|w]; [reflexivity|].
  cbn [ebind]. rewrite update_format.
  destruct (as_opt_dict "format_assessment" w) as [e|f]; [reflexivity|].
  cbn [ebind].
  unfold bind at 1. now rewrite create_final_answer_run.
Qed.

Lemma invoke_log_grows (client : Client) (examples : list FormattingExample)
  (st : AgentState) (log : list Request) :
  exists extra,
    fst (invoke client examples st log)
    = (log ++ grammar_request st :: extra)%list.
Proof.
  rewrite invoke_eq. cbv zeta.
  destruct (messages_create client log (grammar_request st)) as [e|text1];
    [now exists []|].
  match goal with |- context [match ?x with inl _ => _ | inr _ => _ end] =>
    destruct x as [e|a] end;
    [eexists; cbn [fst]; rewrite <- app_assoc; reflexivity|].
  match goal with |- context [match ?x with inl _ => _ | inr _ => _ end] =>
    destruct x as [e|f] end;
    eexists; cbn [fst]; rewrite <- !app_assoc; reflexivity.
Qed.

Lemma process_answer_with_examples (query answer : string)
  (examples : list FormattingExample) (csv_path : option string)
  (log : list Request) :
  process_answer query answer (Some examples) csv_path log =
  match get_claude_client None with
  | inl e => (log, inl e)
  | inr client =>
      let run := invoke client examples (initial_state query answer) log in
      (fst run,
       result <~ snd run ;;
       inl (OtherError "AttributeError"
              "'dict' object has no attribute 'final_answer'"))
  end.
Proof.
  unfold process_answer, build_answer_quality_graph, bind, ret, lift.
  destruct (get_claude_client None) as [e|client]; [reflexivity|].
  cbn [ebind].
  destruct (invoke client examples (initial_state query answer) log)
    as [log' [e|result]]; reflexivity.
Qed.

(** A run of the graph that succeeds, read backwards. *)
Lemma invoke_inversion
  (client : Client) (examples : list FormattingExample)
  (st : AgentState) (log log' : list Request) (values : pydict) :
  invoke client examples st log = (log', inr values) ->
  exists (text : string) (a f : option pydict),
    let st1 := with_grammar st text in
    let st2 := with_adequacy st1 a in
    let st3 := with_format st2 f in
    let log1 := (log ++ [grammar_request st])%list in
    let log2 := (log1 ++ [adequacy_request st1])%list in
    messages_create client log (grammar_request st) = inr text
    /\ run_node (fun s => check_adequacy s (Some client)) st1 log1
       = (log2, inr st2)
    /\ run_node (fun s => improve_formatting s examples (Some client)) st2 log2
       = (log', inr st3)
    /\ log'
       = (log
          ++ [grammar_request st;
              adequacy_request st1;
              formatting_request st2 examples])%list
    /\ values
       = [("user_query", PStr (user_query st));
          ("proposed_answer", PStr (proposed_answer st));
          ("grammar_fixed_answer", PStr text);
          ("adequacy_assessment", of_opt_dict a);
          ("format_assessment", of_opt_dict f);
          ("final_answer", formatted_answer st3)].
Proof.
  rewrite invoke_eq. cbv zeta.
  destruct (messages_create client log (grammar_request st)) as [e|text];
    [discriminate|].
  pose proof (run_node_eq (fun s => check_adequacy s (Some client))
                (with_grammar st text) (log ++ [grammar_request st])%list)
    as Hadequacy.
  cbv beta in Hadequacy. rewrite check_adequacy_run in Hadequacy. cbn [fst snd] in Hadequacy.
  destruct (messages_create client _ (adequacy_request _)) as [e|text2];
    [discriminate|].
  cbn [ebind] in Hadequacy |- *.
  destruct (parse_adequacy (with_grammar st text) text2) as [e|v];
    [discriminate|].
  cbn [ebind] in Hadequacy |- *. rewrite update_adequacy in Hadequacy.
  destruct (as_opt_dict "adequacy_assessment" v) as [e|a]; [discriminate|].
  cbn [ebind] in Hadequacy.
  pose proof (run_node_eq (fun s => improve_formatting s examples (Some client))
                (with_adequacy (with_grammar st text) a)
                ((log ++ [grammar_request st])
                 ++ [adequacy_request (with_grammar st text)])%list)
    as Hformat.
  cbv beta in Hformat. rewrite improve_formatting_run in Hformat. cbn [fst snd] in Hformat.
  destruct (messages_create client _ (formatting_request _ _)) as [e|text3];
    [discriminate|].
  cbn [ebind] in Hformat |- *.
  destruct (parse_format _ text3) as [e|w]; [discriminate|].
  cbn [ebind] in Hformat |- *. rewrite update_format in Hformat.
  destruct (as_opt_dict "format_assessment" w) as [e|f]; [discriminate|].
  cbn [ebind] in Hformat.
  intros H. injection H as <- <-.
  exists text, a, f. cbv zeta.
  split; [reflexivity|]. split; [exact Hadequacy|]. split; [exact Hformat|].
  split; [now rewrite <- !app_assoc|].
  reflexivity.
Qed.

(** process_answer ends in an exception, whatever it is given. *)
Lemma process_answer_raises (query answer : string)
  (formatting_examples : option (list FormattingExample))
  (csv_path : option string) (log : list Request) :
  exists e,
    snd (process_answer query answer formatting_examples csv_path log) = inl e.
Proof.
  destruct formatting_examples as [examples|];
    [|destruct csv_path; eexists; reflexivity].
  rewrite process_answer_with_examples.
  destruct (get_claude_client None) as [e|client]; [eexists; reflexivity|].
  cbv zeta.
  destruct (invoke client examples (initial_state query answer) log)
    as [log' [e|values]]; eexists; reflexivity.
Qed.

(** C10: with no pre-loaded examples and a csv path, process_answer always
    raises, before any stage runs: the loader takes no parameter and is
    called with one argument, so this route succeeds for no input. *)
Theorem csv_path_route_always_raises
  (query answer path : string) (log : list Request) :
  process_answer query answer None (Some path) log
  = (log,
     inl (TypeError
       "load_formatting_examples_from_csv() takes 0 positional arguments but 1 was given")).
Proof. reflexivity. Qed.

(** C9, as amended: process_answer raises the configuration error of a
    missing example source, with no request issued, exactly when neither a
    pre-loaded formatting-example sequence nor an example source path is
    supplied. *)
Theorem missing_examples_error_iff
  (query answer : string)
  (formatting_examples : option (list FormattingExample))
  (csv_path : option string) (log : list Request) :
  process_answer query answer formatting_examples csv_path log
  = (log, inl missing_examples_error)
  <-> formatting_examples = None /\ csv_path = None.
Proof.
  split.
  - destruct formatting_examples as [examples|].
    + rewrite process_answer_with_examples.
      unfold get_claude_client.
      destruct environ_api_key as [[|c k]|]; cbn [str_truthy];
        try (intros H; discriminate H).
      cbv zeta.
      destruct (invoke_log_grows {| api_key := String c k |} examples
                  (initial_state query answer) log) as [extra Hlog].
      rewrite Hlog. intros H. injection H as H _.
      apply (f_equal (@List.length Request)) in H.
      rewrite length_app in H. cbn in H. lia.
    + destruct csv_path as [path|]; [|auto].
      intros H.
      cbv [process_answer bind lift raise ret call_nullary] in H.
      discriminate H.
  - intros [-> ->]. reflexivity.
Qed.


(** C4: one invocation of the pipeline ends in exactly one way, and never in
    a result.  When the graph has run to its end, the three model-calling
    stages have each issued their request and stage 4 has returned a
    final_answer together with a changes_summary record with the fields
    grammar_changed, adequacy_issues and formatting_improvements; what the
    graph returns holds the six declared fields, that final_answer among
    them, and no changes_summary; and process_answer, which reads the values
    returned as attributes, raises AttributeError where it would build its
    result. *)
Theorem completed_run_gives_no_result
  (query answer : string)
  (formatting_examples : option (list FormattingExample))
  (csv_path : option string) (log : list Request) :
  let out := process_answer query answer formatting_examples csv_path log in
  (exists e, snd out = inl e)
  /\ (forall (client : Client) (examples : list FormattingExample)
             (log' : list Request) (values : pydict),
        formatting_examples = Some examples ->
        get_claude_client None = inr client ->
        invoke client examples (initial_state query answer) log
        = (log', inr values) ->
        exists (text : string) (a f : option pydict) (changed : bool)
               (issues improvements : pyval) (msg : string),
          let st3 :=
            with_format
              (with_adequacy
                 (with_grammar (initial_state query answer) text) a) f in
          List.length log' = List.length log + 3
          /\ create_final_answer st3 (Some client) log'
             = (log',
                inr [("final_answer", formatted_answer st3);
                     ("changes_summary",
                      PDict [("grammar_changed", PBool changed);
                             ("adequacy_issues", issues);
                             ("formatting_improvements", improvements)])])
          /\ map fst values
             = ["user_query"; "proposed_answer"; "grammar_fixed_answer";
                "adequacy_assessment"; "format_assessment"; "final_answer"]
          /\ dict_lookup values "final_answer" = Some (formatted_answer st3)
          /\ dict_lookup values "changes_summary" = None
          /\ out = (log', inl (OtherError "AttributeError" msg))).
Proof.
  cbv zeta. split; [apply process_answer_raises|].
  intros client examples log' values -> Hclient Hrun.
  rewrite process_answer_with_examples, Hclient. cbv zeta. rewrite Hrun.
  destruct (invoke_inversion _ _ _ _ _ _ Hrun)
    as (text & a & f & _ & _ & _ & -> & ->).
  exists text, a, f. do 4 eexists.
  split; [rewrite length_app; reflexivity|].
  split; [rewrite create_final_answer_run; reflexivity|].
  repeat split.
Qed.


(** * Further properties of the code *)

(** ** The client and the entry point *)

(** X1: get_claude_client uses an explicit key when one is given and it is
    not empty, whatever the environment holds; an explicit key that is empty
    counts as none; with no explicit key the environment's key is used; and
    when neither gives a non-empty key the call raises the ValueError of the
    missing key. *)
Theorem get_claude_client_key_choice (key : option string) :
  (forall c k, key = Some (String c k) ->
     get_claude_client key = inr {| api_key := String c k |})
  /\ (key = Some EmptyString -> get_claude_client key = get_claude_client None)
  /\ (forall c k, environ_api_key = Some (String c k) ->
        get_claude_client None = inr {| api_key := String c k |})
  /\ (environ_api_key = None \/ environ_api_key = Some EmptyString ->
      get_claude_client None = inl missing_credential_error)
  /\ (forall client, get_claude_client key = inr client ->
        api_key client <> EmptyString).
Proof.
  unfold get_claude_client, missing_credential_error.
  repeat split.
  - intros c k ->. reflexivity.
  - intros ->. reflexivity.
  - intros c k ->. reflexivity.
  - intros [-> | ->]; reflexivity.
  - intros client.
    destruct key as [[|c k]|]; cbn [str_truthy];
      try (intros H; injection H as <-; discriminate);
      destruct environ_api_key as [[|c k]|]; cbn [str_truthy]; intros H;
      try discriminate H; injection H as <-; discriminate.
Qed.

(** X2: without a usable key in the environment, nothing that needs the
    client runs: process_answer with examples raises the ValueError of the
    missing key with no request issued, and so does every node that is called
    without a client, the final node included, although it issues no
    request. *)
Theorem no_credential_no_request
  (query answer : string) (examples : list FormattingExample)
  (csv_path : option string) (st : AgentState) (log : list Request) :
  environ_api_key = None \/ environ_api_key = Some EmptyString ->
  process_answer query answer (Some examples) csv_path log
  = (log, inl missing_credential_error)
  /\ fix_grammar st None log = (log, inl missing_credential_error)
  /\ check_adequacy st None log = (log, inl missing_credential_error)
  /\ improve_formatting st examples None log
     = (log, inl missing_credential_error)
  /\ create_final_answer st None log = (log, inl missing_credential_error).
Proof.
  intros Henv.
  assert (H : get_claude_client None = inl missing_credential_error)
    by (unfold get_claude_client; destruct Henv as [-> | ->]; reflexivity).
  split; [now rewrite process_answer_with_examples, H|].
  unfold fix_grammar, check_adequacy, improve_formatting,
    create_final_answer, bind, ensure_client, lift.
  rewrite H. repeat split.
Qed.

(** X3: when examples are supplied, the csv path is not used at all, and an
    empty list of examples counts as supplied: the graph runs, and the
    examples text of the formatting prompt is empty. *)
Theorem supplied_examples_shadow_csv_path
  (query answer : string) (examples : list FormattingExample)
  (csv_path : option string) (client : Client) (log : list Request) :
  process_answer query answer (Some examples) csv_path log
  = process_answer query answer (Some examples) None log
  /\ (get_claude_client None = inr client ->
      fst (process_answer query answer (Some []) csv_path log)
      = fst (invoke client [] (initial_state query answer) log))
  /\ examples_text [] = EmptyString.
Proof.
  split; [now rewrite !process_answer_with_examples|].
  split; [|reflexivity].
  intros H. now rewrite process_answer_with_examples, H.
Qed.

(** ** The run of the graph *)

(** X4: a run of the graph that succeeds has issued exactly three requests,
    in the order grammar, adequacy, formatting, each built from the state
    that the stages before it left; the final stage issues none.  What the
    graph returns holds the six declared fields and nothing else: the query
    and the proposed answer of the initial state, the reply of the grammar
    stage verbatim, the two assessments that the later stages read, and as
    final_answer the value that the final stage computed, stored as it is,
    a string or not. *)
Theorem successful_run_shape
  (client : Client) (examples : list FormattingExample)
  (st : AgentState) (log log' : list Request) (values : pydict) :
  invoke client examples st log = (log', inr values) ->
  exists (text : string) (a f : option pydict),
    let st1 := with_grammar st text in
    let st2 := with_adequacy st1 a in
    let st3 := with_format st2 f in
    let log1 := (log ++ [grammar_request st])%list in
    let log2 := (log1 ++ [adequacy_request st1])%list in
    messages_create client log (grammar_request st) = inr text
    /\ run_node (fun s => check_adequacy s (Some client)) st1 log1
       = (log2, inr st2)
    /\ run_node (fun s => improve_formatting s examples (Some client)) st2 log2
       = (log', inr st3)
    /\ log'
       = (log
          ++ [grammar_request st;
              adequacy_request st1;
              formatting_request st2 examples])%list
    /\ values
       = [("user_query", PStr (user_query st));
          ("proposed_answer", PStr (proposed_answer st));
          ("grammar_fixed_answer", PStr text);
          ("adequacy_assessment", of_opt_dict a);
          ("format_assessment", of_opt_dict f);
          ("final_answer", formatted_answer st3)].
Proof. apply invoke_inversion. Qed.

(** X5: a failure of the service halts the run at the stage that called it:
    the exception is returned as it was raised, the log holds the requests up
    to the failing one, and no later stage issues a request. *)
Theorem service_failure_halts_the_run
  (client : Client) (examples : list FormattingExample)
  (st : AgentState) (log : list Request) (e : exn) :
  (messages_create client log (grammar_request st) = inl e ->
   invoke client examples st log = ((log ++ [grammar_request st])%list, inl e))
  /\ (forall text,
        let st1 := with_grammar st text in
        let log1 := (log ++ [grammar_request st])%list in
        messages_create client log (grammar_request st) = inr text ->
        messages_create client log1 (adequacy_request st1) = inl e ->
        invoke client examples st log
        = ((log1 ++ [adequacy_request st1])%list, inl e))
  /\ (forall text st2,
        let st1 := with_grammar st text in
        let log1 := (log ++ [grammar_request st])%list in
        let log2 := (log1 ++ [adequacy_request st1])%list in
        run_node (fun s => fix_grammar s (Some client)) st log
        = (log1, inr st1) ->
        run_node (fun s => check_adequacy s (Some client)) st1 log1
        = (log2, inr st2) ->
        messages_create client log2 (formatting_request st2 examples) = inl e ->
        invoke client examples st log
        = ((log2 ++ [formatting_request st2 examples])%list, inl e)).
Proof.
  split; [|split].
  - intros H. now rewrite invoke_eq, H.
  - intros text st1 log1 H1 H2. rewrite invoke_eq, H1. cbv zeta.
    fold st1 log1. now rewrite H2.
  - intros text st2 st1 log1 log2 H1 H2 H3.
    unfold invoke, bind at 1. rewrite H1.
    unfold bind at 1. rewrite H2.
    unfold bind at 1. rewrite run_node_eq, improve_formatting_run.
    cbn [fst snd]. now rewrite H3.
Qed.


(** ** The shapes of a reply *)

Lemma startswith_app (sep r : string) : startswith sep (sep ++ r) = true.
Proof.
  induction sep as [|c sep IH]; cbn; [reflexivity|].
  now rewrite Ascii.eqb_refl, IH.
Qed.

Lemma drop_app (sep r : string) : drop (String.length sep) (sep ++ r) = r.
Proof. induction sep as [|c sep IH]; cbn; [reflexivity | exact IH]. Qed.

(** At an occurrence of the separator. *)
Lemma at_separator (sep r : string) :
  sep <> EmptyString ->
  contains sep (sep ++ r) = true
  /\ before sep (sep ++ r) = EmptyString
  /\ after sep (sep ++ r) = r.
Proof.
  intros Hsep. destruct sep as [|c sep]; [congruence|].
  pose proof (startswith_app (String c sep) r) as H.
  cbn [append] in *. cbn [contains before after]. rewrite H.
  repeat split. apply (drop_app (String c sep) r).
Qed.

(** A text with no backtick holds no start of a fence: a search for a
    separator that starts with a backtick passes over it. *)
Lemma pass_over (p : string) (sep' r : string) :
  contains "`" p = false ->
  let sep := String "`" sep' in
  contains sep (p ++ r) = contains sep r
  /\ before sep (p ++ r) = p ++ before sep r
  /\ after sep (p ++ r) = after sep r.
Proof.
  intros Hp sep. induction p as [|c p IH]; [repeat split|].
  cbn [contains startswith] in Hp.
  apply orb_false_iff in Hp as [Hc Hp].
  destruct (Ascii.eqb "`" c) eqn:Ec; [discriminate|].
  destruct (IH Hp) as (IH1 & IH2 & IH3).
  assert (Hs : startswith sep (String c p ++ r) = false)
    by (unfold sep; cbn [append startswith]; now rewrite Ec).
  cbn [append] in *. cbn [contains before after]. rewrite Hs.
  cbn [orb]. rewrite IH1, IH2, IH3. repeat split.
Qed.

Lemma before_no_backtick (p sep' : string) :
  contains "`" p = false -> before (String "`" sep') p = p.
Proof.
  intros Hp. induction p as [|c p IH]; [reflexivity|].
  cbn [contains startswith] in Hp.
  apply orb_false_iff in Hp as [Hc Hp].
  destruct (Ascii.eqb "`" c) eqn:Ec; [discriminate|].
  cbn [before startswith]. rewrite Ec. cbn [andb]. now rewrite IH.
Qed.

Lemma fence_json_has_fence (s : string) :
  contains fence_json s = true -> contains fence s = true.
Proof.
  induction s as [|c s IH]; [discriminate|].
  cbn [contains]. intros H. apply orb_true_iff in H as [H|H].
  - apply orb_true_iff. left.
    unfold fence_json, fence in *. cbn [startswith] in *.
    destruct s as [|c1 [|c2 s]];
      repeat (apply andb_true_iff in H as [? H]); try discriminate.
    cbn [startswith].
    repeat match goal with E : _ = true |- _ => rewrite E; clear E end.
    reflexivity.
  - apply orb_true_iff. right. now apply IH.
Qed.

(** X6: the parser raises exactly what the decoder raises, except
    JSONDecodeError, which it handles: the indexing of the split pieces never
    raises IndexError, and no exception other than JSONDecodeError is
    swallowed. *)
Theorem parser_raises_only_decoder_errors
  (st : AgentState) (response_text : string) (e : exn) :
  exists content,
    json_content response_text = inr content
    /\ (parse_adequacy st response_text = inl e
        <-> json_loads content = inl e /\ e <> JSONDecodeError)
    /\ (parse_format st response_text = inl e
        <-> json_loads content = inl e /\ e <> JSONDecodeError).
Proof.
  exists (chosen_content response_text).
  split; [apply json_content_chosen|].
  unfold parse_adequacy, parse_format. rewrite !parse_response_chosen.
  destruct (json_loads (chosen_content response_text)) as [e'|v].
  - split; (split;
      [destruct e'; intros H; try discriminate H; injection H as <-;
       (split; [reflexivity | discriminate])
      |intros [H Hne]; injection H as ->; destruct e; congruence]).
  - split; (split; [discriminate | intros [H _]; discriminate H]).
Qed.

(** X7: a reply with no fence is decoded as a whole, trimmed. *)
Theorem bare_reply_is_decoded_whole
  (st : AgentState) (response_text : string) :
  contains fence response_text = false ->
  json_content response_text = inr (strip response_text)
  /\ parse_adequacy st response_text
     = match json_loads (strip response_text) with
       | inr v => inr v
       | inl JSONDecodeError => inr (PDict (adequacy_fallback st))
       | inl e => inl e
       end.
Proof.
  intros H.
  assert (Hj : contains fence_json response_text = false).
  { destruct (contains fence_json response_text) eqn:E; [|reflexivity].
    apply fence_json_has_fence in E. congruence. }
  assert (Hc : chosen_content response_text = strip response_text)
    by (unfold chosen_content; now rewrite Hj, H).
  split; [now rewrite json_content_chosen, Hc|].
  unfold parse_adequacy. now rewrite parse_response_chosen, Hc.
Qed.

(** X8: a reply that holds one block between a json-labelled fence and a
    closing fence, with no backtick before the block or inside it and none
    right after the closing fence, is decoded from the content of the block,
    trimmed, whatever prose stands around the block; so is a reply whose
    json-labelled block is never closed. *)
Theorem json_block_is_decoded
  (st : AgentState) (pre body post : string) :
  contains "`" pre = false ->
  contains "`" body = false ->
  startswith "`" post = false ->
  json_content (pre ++ fence_json ++ body ++ fence ++ post)
  = inr (strip body)
  /\ json_content (pre ++ fence_json ++ body) = inr (strip body)
  /\ parse_adequacy st (pre ++ fence_json ++ body ++ fence ++ post)
     = match json_loads (strip body) with
       | inr v => inr v
       | inl JSONDecodeError => inr (PDict (adequacy_fallback st))
       | inl e => inl e
       end.
Proof.
  intros Hpre Hbody Hpost.
  assert (Hj : fence_json <> EmptyString) by discriminate.
  assert (Hclosed :
    chosen_content (pre ++ fence_json ++ body ++ fence ++ post) = strip body).
  { unfold chosen_content.
    destruct (pass_over pre "``json"
                (fence_json ++ body ++ fence ++ post) Hpre)
      as (H1 & _ & H3).
    destruct (at_separator fence_json (body ++ fence ++ post) Hj)
      as (A1 & _ & A3).
    change (String "`" "``json") with fence_json in *.
    rewrite H1, A1, H3, A3.
    destruct (pass_over body "``json" (fence ++ post) Hbody) as (_ & B2 & _).
    change (String "`" "``json") with fence_json in *. rewrite B2.
    destruct (pass_over body "``"
                (before fence_json (fence ++ post)) Hbody) as (_ & C2 & _).
    change (String "`" "``") with fence in *. rewrite C2.
    assert (X : before fence (before fence_json (fence ++ post))
                = EmptyString).
    { unfold fence, fence_json. cbn [append before startswith].
      rewrite !Ascii.eqb_refl. cbn [andb].
      destruct post as [|c post]; [reflexivity|].
      cbn [startswith] in Hpost. rewrite andb_true_r in Hpost.
      cbn [startswith]. rewrite Hpost. cbn [andb].
      match goal with |- context [if ?b then _ else _] => destruct b end;
        [reflexivity|].
      cbn [before startswith]. rewrite !Ascii.eqb_refl. reflexivity. }
    now rewrite X, append_nil_r. }
  assert (Hopen : chosen_content (pre ++ fence_json ++ body) = strip body).
  { unfold chosen_content.
    destruct (pass_over pre "``json" (fence_json ++ body) Hpre)
      as (H1 & _ & H3).
    pose proof (at_separator fence_json body Hj) as (A1 & _ & A3).
    change (String "`" "``json") with fence_json in *.
    rewrite H1, A1, H3, A3.
    unfold fence, fence_json.
    now rewrite (before_no_backtick body "``json" Hbody),
      (before_no_backtick body "``" Hbody). }
  split; [now rewrite json_content_chosen, Hclosed|].
  split; [now rewrite json_content_chosen, Hopen|].
  unfold parse_adequacy. now rewrite parse_response_chosen, Hclosed.
Qed.

(** X9: a reply that holds no json-labelled fence and one block between two
    plain fences, with no backtick before the block or inside it, is decoded
    from the content of the block, trimmed. *)
Theorem plain_block_is_decoded
  (st : AgentState) (pre body post : string) :
  contains "`" pre = false ->
  contains "`" body = false ->
  contains fence_json (pre ++ fence ++ body ++ fence ++ post) = false ->
  json_content (pre ++ fence ++ body ++ fence ++ post) = inr (strip body)
  /\ parse_adequacy st (pre ++ fence ++ body ++ fence ++ post)
     = match json_loads (strip body) with
       | inr v => inr v
       | inl JSONDecodeError => inr (PDict (adequacy_fallback st))
       | inl e => inl e
       end.
Proof.
  intros Hpre Hbody Hnoj.
  assert (Hf : fence <> EmptyString) by discriminate.
  assert (Hc :
    chosen_content (pre ++ fence ++ body ++ fence ++ post) = strip body).
  { unfold chosen_content. rewrite Hnoj.
    destruct (pass_over pre "``" (fence ++ body ++ fence ++ post) Hpre)
      as (H1 & _ & H3).
    destruct (at_separator fence (body ++ fence ++ post) Hf) as (A1 & _ & A3).
    change (String "`" "``") with fence in *.
    rewrite H1, A1, H3, A3.
    destruct (pass_over body "``" (fence ++ post) Hbody) as (_ & B2 & _).
    destruct (at_separator fence post Hf) as (_ & D2 & _).
    change (String "`" "``") with fence in *.
    now rewrite B2, D2, append_nil_r. }
  split; [now rewrite json_content_chosen, Hc|].
  unfold parse_adequacy. now rewrite parse_response_chosen, Hc.
Qed.


(** ** How the stages compose *)

Lemma current_answer_fallback (st : AgentState) :
  py_truthy (improved_answer_of (adequacy_assessment st)) = false ->
  current_answer st = PStr (adequacy_input st).
Proof. unfold current_answer. cbv zeta. now intros ->. Qed.

(** X10: when the reply of the formatting stage is not parseable, the stage
    stores the sentinel record whose improved answer is the current answer
    that was sent for formatting, and the final answer computed from that
    state is this same current answer: the answer of the stage before is
    carried forward. *)
Theorem unparseable_formatting_keeps_current_answer
  (st : AgentState) (response_text content : string)
  (examples : list FormattingExample)
  (client : Client) (log : list Request) :
  json_content response_text = inr content ->
  json_loads content = inl JSONDecodeError ->
  messages_create client log (formatting_request st examples)
  = inr response_text ->
  let sentinel :=
    [("formatting_issues", PList [PStr "Unable to parse assessment"]);
     ("improvements_made", PList [PStr "Error processing formatting"]);
     ("improved_answer", current_answer st)] in
  let st' := with_format st (Some sentinel) in
  run_node (fun s => improve_formatting s examples (Some client)) st log
  = ((log ++ [formatting_request st examples])%list, inr st')
  /\ formatted_answer st' = current_answer st
  /\ formatting_changes st' = PList [PStr "Error processing formatting"].
Proof.
  intros Hcontent Hloads Hreply sentinel st'.
  split; [|split; [|reflexivity]].
  - rewrite run_node_eq, improve_formatting_run. cbn [fst snd].
    rewrite Hreply. cbn [ebind].
    unfold parse_format, parse_response. rewrite Hcontent. cbn [ebind].
    rewrite Hloads. cbn [ebind]. now rewrite update_format.
  - unfold formatted_answer. cbv zeta.
    change (improved_answer_of (format_assessment st'))
      with (current_answer st).
    change (adequacy_assessment st') with (adequacy_assessment st).
    change (grammar_fixed_answer st') with (grammar_fixed_answer st).
    change (proposed_answer st') with (proposed_answer st).
    destruct (py_truthy (current_answer st)) eqn:Hc; [reflexivity|].
    cbn [negb]. unfold current_answer in *. cbv zeta in *.
    destruct (py_truthy (improved_answer_of (adequacy_assessment st)))
      eqn:Ha; cbn [negb] in *; [congruence | reflexivity].
Qed.

Lemma adequacy_fallback_answer (st : AgentState) :
  improved_answer_of (Some (adequacy_fallback st)) = PStr (adequacy_input st).
Proof. reflexivity. Qed.

Lemma format_fallback_answer (st : AgentState) :
  improved_answer_of (Some (format_fallback st)) = current_answer st.
Proof. reflexivity. Qed.

(** X11: after an unparseable adequacy reply, the formatting stage works on
    the very answer that the adequacy stage judged (the grammar-fixed answer
    when it is not empty, else the proposed answer), and the change summary
    lists the sentinel's suggestion as the adequacy issue; when the
    formatting reply is unparseable too, that answer is the final answer. *)
Theorem unparseable_adequacy_carries_input_forward (st : AgentState) :
  let st2 := with_adequacy st (Some (adequacy_fallback st)) in
  let st3 := with_format st2 (Some (format_fallback st2)) in
  current_answer st2 = PStr (adequacy_input st)
  /\ adequacy_changes st2 = PList [PStr "Error processing assessment"]
  /\ formatted_answer st3 = PStr (adequacy_input st).
Proof.
  cbv zeta.
  set (st2 := with_adequacy st (Some (adequacy_fallback st))).
  assert (H : current_answer st2 = PStr (adequacy_input st)).
  { unfold current_answer. cbv zeta.
    change (adequacy_assessment st2) with (Some (adequacy_fallback st)).
    rewrite adequacy_fallback_answer.
    change (opt_str_or (grammar_fixed_answer st2) (proposed_answer st2))
      with (adequacy_input st).
    destruct (adequacy_input st); reflexivity. }
  split; [exact H|]. split; [reflexivity|].
  unfold formatted_answer. cbv zeta.
  change (format_assessment (with_format st2 (Some (format_fallback st2))))
    with (Some (format_fallback st2)).
  rewrite format_fallback_answer, H.
  change (adequacy_assessment (with_format st2 (Some (format_fallback st2))))
    with (Some (adequacy_fallback st)).
  rewrite adequacy_fallback_answer.
  change (opt_str_or
            (grammar_fixed_answer
               (with_format st2 (Some (format_fallback st2))))
            (proposed_answer (with_format st2 (Some (format_fallback st2)))))
    with (adequacy_input st).
  destruct (adequacy_input st); reflexivity.
Qed.

(** X12: the final stage never answers with nothing when the proposed answer
    is not empty: its final answer has a true Python truth value, and is not
    the empty string. *)
Theorem final_answer_not_empty (st : AgentState) :
  proposed_answer st <> EmptyString ->
  py_truthy (formatted_answer st) = true
  /\ formatted_answer st <> PStr EmptyString.
Proof.
  intros Hpa.
  assert (H : py_truthy (formatted_answer st) = true).
  { rewrite formatted_answer_eq.
    destruct (present_nonempty (format_assessment st)) as [v|] eqn:Hf;
      [now apply present_nonempty_truthy in Hf|].
    destruct (present_nonempty (adequacy_assessment st)) as [v|] eqn:Ha;
      [now apply present_nonempty_truthy in Ha|].
    destruct (grammar_fixed_answer st) as [[|c s]|]; try reflexivity;
      destruct (proposed_answer st); [congruence | reflexivity
                                      | congruence | reflexivity]. }
  split; [exact H|]. intros E. rewrite E in H. discriminate H.
Qed.

(** X13: process_answer returns for no input: every call ends in an
    exception.  With examples and a client, the requests it issues are those
    of the run of the graph; an exception of the graph is raised unchanged;
    and when the graph returns its values, the first attribute read of them,
    result.final_answer, raises AttributeError, so that the result is never
    built. *)
Theorem process_answer_never_returns
  (query answer : string)
  (formatting_examples : option (list FormattingExample))
  (csv_path : option string) (log : list Request) :
  let out := process_answer query answer formatting_examples csv_path log in
  (forall result, snd out <> inr result)
  /\ (forall (client : Client) (examples : list FormattingExample),
        formatting_examples = Some examples ->
        get_claude_client None = inr client ->
        let run := invoke client examples (initial_state query answer) log in
        fst out = fst run
        /\ (forall e, snd run = inl e -> snd out = inl e)
        /\ (forall values,
              snd run = inr values ->
              exists msg,
                mapping_getattr values "final_answer"
                = inl (OtherError "AttributeError" msg)
                /\ snd out = inl (OtherError "AttributeError" msg))).
Proof.
  cbv zeta. split.
  - intros result H.
    destruct (process_answer_raises query answer formatting_examples
                csv_path log) as [e He].
    congruence.
  - intros client examples -> Hclient.
    rewrite process_answer_with_examples, Hclient. cbv zeta. cbn [fst snd].
    split; [reflexivity|].
    split; [intros e -> | intros values ->; eexists; repeat split];
      reflexivity.
Qed.


(** ** The page *)

(** X14: the page cannot process an answer: main calls process_answer with
    neither examples nor a csv path, so that a press of the button always
    ends in the ValueError of the missing example source, with no request
    issued and nothing rendered; without a press, main does nothing. *)
Theorem main_always_raises
  (text_input text_area : string) (log : list Request) :
  main text_input text_area true log
  = (log, ([], inl missing_examples_error))
  /\ main text_input text_area false log = (log, ([], inr tt)).
Proof. split; reflexivity. Qed.

(** X15: main renders a result only when its final_answer is itself a
    record that holds final_answer, adequacy_assessment and a record
    format_assessment with formatting_issues: then it writes the three values
    under the two headers.  When final_answer is a string or None, which is
    what AgentState lets the field hold, the first indexing raises TypeError
    right after the first header, and nothing is written. *)
Theorem render_needs_nested_result (result : pydict) :
  (forall calls,
     render result = (calls, inr tt)
     <-> exists (final format : pydict) (v1 v2 v3 : pyval),
           dict_lookup result "final_answer" = Some (PDict final)
           /\ dict_lookup final "final_answer" = Some v1
           /\ dict_lookup final "adequacy_assessment" = Some v2
           /\ dict_lookup final "format_assessment" = Some (PDict format)
           /\ dict_lookup format "formatting_issues" = Some v3
           /\ calls
              = [Header "Final Answer";
                 Write "Final Answer:" v1;
                 Header "Summary of Changes";
                 Write "Adequacy Issues:" v2;
                 Write "Formatting Improvements:" v3])
  /\ (forall s,
        dict_lookup result "final_answer" = Some (PStr s) ->
        render result
        = ([Header "Final Answer"],
           inl (TypeError "string indices must be integers, not 'str'")))
  /\ (dict_lookup result "final_answer" = Some PNone ->
      render result
      = ([Header "Final Answer"],
         inl (TypeError "'NoneType' object is not subscriptable"))).
Proof.
  split; [|split].
  - intros calls. unfold render. cbv zeta. cbn [py_getitem ebind].
    split.
    + destruct (dict_lookup result "final_answer") as [v|];
        [|discriminate].
      cbn [ebind].
      destruct v as [| | | | | |final]; try discriminate.
      cbn [py_getitem].
      destruct (dict_lookup final "final_answer") as [v1|] eqn:H1;
        [|discriminate].
      destruct (dict_lookup final "adequacy_assessment") as [v2|] eqn:H2;
        [|discriminate].
      destruct (dict_lookup final "format_assessment") as [v|] eqn:H3;
        [|discriminate].
      cbn [ebind].
      destruct v as [| | | | | |format]; try discriminate.
      cbn [py_getitem].
      destruct (dict_lookup format "formatting_issues") as [v3|] eqn:H4;
        [|discriminate].
      intros H. injection H as <-.
      exists final, format, v1, v2, v3. repeat split; assumption.
    + intros (final & format & v1 & v2 & v3 & H0 & H1 & H2 & H3 & H4 & ->).
      rewrite H0. cbn [ebind py_getitem]. rewrite H1, H2, H3.
      cbn [ebind py_getitem]. now rewrite H4.
  - intros s H. unfold render. cbv zeta. cbn [py_getitem ebind].
    now rewrite H.
  - intros H. unfold render. cbv zeta. cbn [py_getitem ebind].
    now rewrite H.
Qed.

End Pipeline.


(** * The example store *)

Lemma load_rows_spec (rows : list Csv.row) :
  forall acc out,
    Csv.load_rows rows acc = inr out
    <-> exists new,
          out = (acc ++ new)%list
          /\ Forall2 (fun r e => Csv.example_of_row r = inr e) rows new.
Proof.
  induction rows as [|r rows IH]; intros acc out; cbn [Csv.load_rows].
  - split.
    + intros H. injection H as <-. exists []. split; [|constructor].
      now rewrite app_nil_r.
    + intros (new & -> & H). inversion H. now rewrite app_nil_r.
  - destruct (Csv.example_of_row r) as [e|ex] eqn:Hr; cbn [ebind].
    + split; [discriminate|]. intros (new & _ & H).
      inversion H; subst. congruence.
    + rewrite IH. split.
      * intros (new & -> & H). exists (ex :: new). split.
        -- now rewrite <- app_assoc.
        -- now constructor.
      * intros (new & -> & H). inversion H as [|r' e' rows' new' He Hrest];
          subst. assert (e' = ex) by congruence. subst e'.
        exists new'. split; [now rewrite <- app_assoc | exact Hrest].
Qed.

(** X16: the loader makes one example per row, in the order of the rows,
    each from its own row alone: it returns a list exactly when every row
    gives an example, and the list is then the list of these examples; an
    exception raised while the file is opened or read is raised by the
    loader. *)
Theorem loader_maps_rows_in_order
  (rows : list Csv.row) (examples : list pydict) (e : exn) :
  (Csv.load_formatting_examples_from_csv (inr rows) = inr examples
   <-> Forall2 (fun r example => Csv.example_of_row r = inr example)
               rows examples)
  /\ (Csv.load_formatting_examples_from_csv (inr rows) = inr examples ->
      List.length examples = List.length rows)
  /\ Csv.load_formatting_examples_from_csv (inl e) = inl e.
Proof.
  unfold Csv.load_formatting_examples_from_csv. cbn [ebind].
  assert (H : Csv.load_rows rows [] = inr examples
              <-> Forall2 (fun r example => Csv.example_of_row r = inr example)
                          rows examples).
  { rewrite load_rows_spec. cbn [app]. split.
    - intros (new & -> & H). exact H.
    - intros H. now exists examples. }
  split; [exact H|]. split; [|reflexivity].
  intros Hl. apply H in Hl. symmetry. eapply Forall2_length. exact Hl.
Qed.

Lemma descriptions_loop_spec (r : Csv.row) (indices : list nat) :
  forall acc,
    (forall i, In i indices ->
       Csv.row_lookup r (Csv.description_key i) <> Some None) ->
    Csv.descriptions_loop r indices acc
    = inr (acc ++ flat_map
                    (fun i =>
                       match Csv.row_lookup r (Csv.description_key i) with
                       | Some (Some c) =>
                           if str_truthy (PyStr.strip c)
                           then [PyStr.strip c] else []
                       | _ => []
                       end) indices)%list.
Proof.
  induction indices as [|i indices IH]; intros acc Hcells.
  - cbn. now rewrite app_nil_r.
  - cbn [Csv.descriptions_loop flat_map]. unfold Csv.add_description.
    assert (Hi : Csv.row_lookup r (Csv.description_key i) <> Some None)
      by (apply Hcells; now left).
    assert (Hrest : forall j, In j indices ->
              Csv.row_lookup r (Csv.description_key j) <> Some None)
      by (intros j Hj; apply Hcells; now right).
    destruct (Csv.row_lookup r (Csv.description_key i)) as [[c|]|];
      [|congruence|]; cbn [Csv.cell_strip ebind].
    + destruct (str_truthy (PyStr.strip c)); cbn [ebind];
        rewrite IH by assumption; [now rewrite <- app_assoc | reflexivity].
    + now rewrite IH.
Qed.

Lemma descriptions_loop_none (r : Csv.row) (indices : list nat) :
  forall acc,
    (exists i, In i indices
               /\ Csv.row_lookup r (Csv.description_key i) = Some None) ->
    Csv.descriptions_loop r indices acc
    = inl (OtherError "AttributeError"
             "'NoneType' object has no attribute 'strip'").
Proof.
  induction indices as [|i indices IH]; intros acc (j & Hj & Hnone);
    [destruct Hj|].
  cbn [Csv.descriptions_loop]. unfold Csv.add_description.
  destruct (Csv.row_lookup r (Csv.description_key i)) as [[c|]|] eqn:Hi;
    cbn [Csv.cell_strip ebind]; [| reflexivity |].
  - destruct Hj as [<-|Hj]; [congruence|].
    destruct (str_truthy (PyStr.strip c)); cbn [ebind]; apply IH; eauto.
  - destruct Hj as [<-|Hj]; [congruence|]. apply IH; eauto.
Qed.

(** The descriptions of a row: the cells 1 to 4 that are there and not
    blank, trimmed, in the order of the columns. *)
Lemma change_descriptions_spec (r : Csv.row) (descriptions : list string) :
  Csv.change_descriptions r = inr descriptions ->
  descriptions
  = flat_map
      (fun i =>
         match Csv.row_lookup r (Csv.description_key i) with
         | Some (Some c) =>
             if str_truthy (PyStr.strip c) then [PyStr.strip c] else []
         | _ => []
         end) [1; 2; 3; 4].
Proof.
  intros H.
  assert (Hcells : forall i, In i [1; 2; 3; 4] ->
            Csv.row_lookup r (Csv.description_key i) <> Some None).
  { intros i Hi Hnone. unfold Csv.change_descriptions in H.
    rewrite (descriptions_loop_none r (seq 1 4) []) in H; [discriminate|].
    now exists i. }
  unfold Csv.change_descriptions in H.
  rewrite (descriptions_loop_spec r (seq 1 4) [] Hcells) in H.
  injection H as <-. reflexivity.
Qed.

(** X17: the explanation of the example of a row is made of the change
    descriptions 1 to 4 that the row has and that are not blank, in the order
    of the columns: each is trimmed and written after a bullet and a space,
    and they are joined by line feeds.  Columns that are missing or blank
    give no description, there are at most four descriptions, none of them
    empty, and the explanation is the empty string exactly when there is
    none. *)
Theorem explanation_lists_the_descriptions
  (r : Csv.row) (example : pydict) :
  Csv.example_of_row r = inr example ->
  let descriptions :=
    flat_map
      (fun i =>
         match Csv.row_lookup r (Csv.description_key i) with
         | Some (Some c) =>
             if str_truthy (PyStr.strip c) then [PyStr.strip c] else []
         | _ => []
         end) [1; 2; 3; 4] in
  Csv.change_descriptions r = inr descriptions
  /\ dict_lookup example "explanation"
     = Some (PStr (String.concat PyStr.nl
                     (map (fun d => PyStr.bytes [226; 128; 162; 32] ++ d)
                          descriptions)))
  /\ List.length descriptions <= 4
  /\ Forall (fun d => d <> EmptyString) descriptions
  /\ (dict_lookup example "explanation" = Some (PStr EmptyString)
      <-> descriptions = []).
Proof.
  intros H. unfold Csv.example_of_row in H.
  destruct (Csv.change_descriptions r) as [e|l] eqn:Hl; [discriminate|].
  cbn [ebind] in H.
  destruct (Csv.row_getitem r "Task") as [e|t]; [discriminate|].
  cbn [ebind] in H.
  destruct (Csv.row_getitem r "Bad Formatting") as [e|b]; [discriminate|].
  cbn [ebind] in H.
  destruct (Csv.row_getitem r "Good Formatting") as [e|g]; [discriminate|].
  cbn [ebind] in H. injection H as <-.
  pose proof (change_descriptions_spec r l Hl) as Hspec.
  cbv zeta. rewrite <- Hspec.
  split; [reflexivity|]. split; [reflexivity|].
  change (dict_lookup _ "explanation")
    with (Some (PStr (Csv.explanation_of l))).
  clear Hl. subst l. cbn [flat_map app].
  repeat match goal with
         | |- context [Csv.row_lookup r ?k] =>
             destruct (Csv.row_lookup r k) as [[?c|]|]
         end;
    repeat match goal with
           | |- context [str_truthy ?s] =>
               let E := fresh "E" in destruct (str_truthy s) eqn:E
           end;
    cbn [app List.length];
    (split; [lia|]);
    (split;
     [repeat constructor;
      match goal with
      | E : str_truthy ?s = true |- ?s <> EmptyString =>
          intros Hs; rewrite Hs in E; discriminate E
      end
     |]);
    unfold Csv.explanation_of; cbn [map String.concat];
    (split; [intros Hs | intros Hs; try discriminate Hs]);
    try reflexivity;
    try (exfalso; revert Hs; unfold Csv.bullet; cbn [PyStr.bytes append];
         discriminate).
Qed.

(** X18: a row gives an example exactly when none of its change
    descriptions 1 to 4 is a missing cell of a short line and it has the
    columns Task, Bad Formatting and Good Formatting; the example then holds
    the three cells as they are, untrimmed, and the explanation.  A missing
    description cell raises AttributeError, before a missing column is looked
    at; a missing column raises KeyError, the first missing one in the order
    Task, Bad Formatting, Good Formatting. *)
Theorem example_of_row_cases (r : Csv.row) :
  let short :=
    exists i, In i [1; 2; 3; 4]
              /\ Csv.row_lookup r (Csv.description_key i) = Some None in
  (short ->
   Csv.example_of_row r
   = inl (OtherError "AttributeError"
            "'NoneType' object has no attribute 'strip'"))
  /\ (~ short -> Csv.row_lookup r "Task" = None ->
      Csv.example_of_row r = inl (OtherError "KeyError" "Task"))
  /\ (~ short -> Csv.row_lookup r "Task" <> None ->
      Csv.row_lookup r "Bad Formatting" = None ->
      Csv.example_of_row r = inl (OtherError "KeyError" "Bad Formatting"))
  /\ (~ short -> Csv.row_lookup r "Task" <> None ->
      Csv.row_lookup r "Bad Formatting" <> None ->
      Csv.row_lookup r "Good Formatting" = None ->
      Csv.example_of_row r = inl (OtherError "KeyError" "Good Formatting"))
  /\ (forall example,
        Csv.example_of_row r = inr example
        <-> exists t b g descriptions,
              Csv.change_descriptions r = inr descriptions
              /\ Csv.row_lookup r "Task" = Some t
              /\ Csv.row_lookup r "Bad Formatting" = Some b
              /\ Csv.row_lookup r "Good Formatting" = Some g
              /\ example
                 = [("task", of_opt_str t);
                    ("bad_format", of_opt_str b);
                    ("good_format", of_opt_str g);
                    ("explanation",
                     PStr (Csv.explanation_of descriptions))]).
Proof.
  cbv zeta.
  assert (Hok : ~ (exists i, In i [1; 2; 3; 4]
                   /\ Csv.row_lookup r (Csv.description_key i) = Some None) ->
                exists descriptions,
                  Csv.change_descriptions r = inr descriptions).
  { intros Hshort. eexists. unfold Csv.change_descriptions.
    apply (descriptions_loop_spec r (seq 1 4) []).
    intros i Hi Hnone. apply Hshort. now exists i. }
  unfold Csv.example_of_row, Csv.row_getitem.
  split; [|split; [|split; [|split]]].
  - intros Hshort. unfold Csv.change_descriptions.
    now rewrite (descriptions_loop_none r (seq 1 4) [] Hshort).
  - intros Hshort Ht. destruct (Hok Hshort) as [d ->]. cbn [ebind].
    now rewrite Ht.
  - intros Hshort Ht Hb. destruct (Hok Hshort) as [d ->]. cbn [ebind].
    destruct (Csv.row_lookup r "Task"); [|congruence]. cbn [ebind].
    now rewrite Hb.
  - intros Hshort Ht Hb Hg. destruct (Hok Hshort) as [d ->]. cbn [ebind].
    destruct (Csv.row_lookup r "Task"); [|congruence]. cbn [ebind].
    destruct (Csv.row_lookup r "Bad Formatting"); [|congruence].
    cbn [ebind]. now rewrite Hg.
  - intros example.
    destruct (Csv.change_descriptions r) as [e|d]; cbn [ebind].
    { split; [discriminate | intros (? & ? & ? & ? & H & _); discriminate]. }
    destruct (Csv.row_lookup r "Task") as [t|]; cbn [ebind].
    2:{ split; [discriminate
               | intros (? & ? & ? & ? & _ & H & _); discriminate]. }
    destruct (Csv.row_lookup r "Bad Formatting") as [b|]; cbn [ebind].
    2:{ split; [discriminate
               | intros (? & ? & ? & ? & _ & _ & H & _); discriminate]. }
    destruct (Csv.row_lookup r "Good Formatting") as [g|]; cbn [ebind].
    2:{ split; [discriminate
               | intros (? & ? & ? & ? & _ & _ & _ & H & _); discriminate]. }
    split.
    + intros H. injection H as <-. exists t, b, g, d. repeat split.
    + intros (t' & b' & g' & d' & Hd & Ht & Hb & Hg & ->).
      injection Hd as <-. injection Ht as <-. injection Hb as <-.
      injection Hg as <-. reflexivity.
Qed.

(** * Concrete runs *)

(** The state with an empty grammar-fixed answer is the one the grammar stage
    produces when the service replies with the empty text. *)
Example empty_fix_is_reachable :
  run_node
    (fun s => fix_grammar Demo.environ (Demo.scripted [inr EmptyString]) s
                (Some Demo.client))
    (initial_state Demo.query Demo.answer) []
  = ([grammar_request (initial_state Demo.query Demo.answer)],
     inr Demo.empty_fix).
Proof. reflexivity. Qed.

(** C2: a reply in plain prose, after a grammar stage that fixed the answer. *)
Lemma unparseable_adequacy_witness :
  let st := Demo.fixed_state in
  let log := [grammar_request (initial_state Demo.query Demo.answer)] in
  let sentinel :=
    [("adequately_addressed", PBool false);
     ("missing_aspects", PList [PStr "Unable to parse assessment"]);
     ("suggestions", PList [PStr "Error processing assessment"]);
     ("improved_answer", PStr Demo.fixed)] in
  json_content Demo.prose = inr Demo.prose
  /\ Json.loads Demo.prose = inl JSONDecodeError
  /\ Demo.gateway Demo.client log (adequacy_request st) = inr Demo.prose
  /\ parse_adequacy Json.loads st Demo.prose = inr (PDict sentinel)
  /\ run_node
       (fun s => check_adequacy Demo.environ Demo.gateway Json.loads s
                   (Some Demo.client))
       st log
     = ((log ++ [adequacy_request st])%list,
        inr (with_adequacy st (Some sentinel))).
Proof.
  cbv zeta.
  assert (H1 : json_content Demo.prose = inr Demo.prose) by reflexivity.
  assert (H2 : Json.loads Demo.prose = inl JSONDecodeError)
    by (vm_compute; reflexivity).
  assert (H3 : Demo.gateway Demo.client
                 [grammar_request (initial_state Demo.query Demo.answer)]
                 (adequacy_request Demo.fixed_state) = inr Demo.prose)
    by reflexivity.
  destruct (proj1 (unparseable_adequacy_gives_sentinel
                     Demo.environ Demo.gateway Json.loads Demo.str_of_scalar
                     Demo.fixed_state Demo.prose Demo.prose Demo.client
                     [grammar_request (initial_state Demo.query Demo.answer)]
                     Demo.examples H1 H3) H2) as (P & Q & _).
  exact (conj H1 (conj H2 (conj H3 (conj P Q)))).
Defined.

(** C1: a bare JSON document with a fenced snippet in one of its strings.
    The parser applies strategy (b), whose content is not JSON, and returns
    the fallback record; the whole text, strategy (c), is parseable. *)
Lemma fence_inside_json_is_not_retried :
  PyStr.contains fence_json Demo.bare_json_with_fence = false
  /\ json_content Demo.bare_json_with_fence = inr "ls"
  /\ Json.loads "ls" = inl JSONDecodeError
  /\ parse_adequacy Json.loads Demo.fixed_state Demo.bare_json_with_fence
     = inr (PDict (adequacy_fallback Demo.fixed_state))
  /\ spec_parse_response Json.loads Demo.bare_json_with_fence
       (adequacy_fallback Demo.fixed_state)
     = PDict [("adequately_addressed", PBool true);
              ("missing_aspects", PList []);
              ("suggestions", PList []);
              ("improved_answer", PStr "Run ```ls``` first")].
Proof. repeat split; vm_compute; reflexivity. Qed.

(** C2: after a grammar stage that returned the empty text, the sentinel
    carries the proposed answer, not the (present) grammar-fixed answer. *)
Lemma empty_grammar_fix_sentinel :
  grammar_fixed_answer Demo.empty_fix = Some EmptyString
  /\ Json.loads Demo.prose = inl JSONDecodeError
  /\ parse_adequacy Json.loads Demo.empty_fix Demo.prose
     = inr (PDict
         [("adequately_addressed", PBool false);
          ("missing_aspects", PList [PStr "Unable to parse assessment"]);
          ("suggestions", PList [PStr "Error processing assessment"]);
          ("improved_answer", PStr Demo.answer)])
  /\ parse_adequacy Json.loads Demo.empty_fix Demo.prose
     <> inr (PDict (spec_adequacy_sentinel Demo.empty_fix)).
Proof.
  repeat split; try (vm_compute; reflexivity).
  vm_compute. intros H. discriminate H.
Qed.

(** C3: the grammar-fixed answer is present and differs from the proposed
    answer, and grammar_changed is false. *)
Lemma empty_grammar_fix_reports_unchanged :
  grammar_fixed_answer Demo.empty_fix = Some EmptyString
  /\ EmptyString <> proposed_answer Demo.empty_fix
  /\ spec_grammar_changed Demo.empty_fix = true
  /\ dict_lookup (changes_summary Demo.empty_fix) "grammar_changed"
     = Some (PBool false).
Proof. repeat split; try reflexivity. discriminate. Qed.

(** C5: the formatting stage does not use a grammar-fixed answer that is
    present and empty. *)
Lemma empty_grammar_fix_current_answer :
  adequacy_assessment Demo.empty_fix = None
  /\ grammar_fixed_answer Demo.empty_fix = Some EmptyString
  /\ spec_current_answer Demo.empty_fix = PStr EmptyString
  /\ current_answer Demo.empty_fix = PStr Demo.answer
  /\ current_answer Demo.empty_fix <> spec_current_answer Demo.empty_fix.
Proof. repeat split; try reflexivity. discriminate. Qed.

(** C6: nor does the final synthesis stage. *)
Lemma empty_grammar_fix_final_answer :
  format_assessment Demo.empty_fix = None
  /\ adequacy_assessment Demo.empty_fix = None
  /\ grammar_fixed_answer Demo.empty_fix = Some EmptyString
  /\ spec_final_answer Demo.empty_fix = PStr EmptyString
  /\ formatted_answer Demo.empty_fix = PStr Demo.answer
  /\ formatted_answer Demo.empty_fix <> spec_final_answer Demo.empty_fix.
Proof. repeat split; try reflexivity. discriminate. Qed.

(** C9: examples are supplied and no credential is configured: a
    configuration error is raised before any stage runs. *)
Lemma missing_credential_with_examples :
  process_answer None Demo.gateway Json.loads Demo.str_of_scalar Demo.no_csv
    Demo.query Demo.answer (Some Demo.examples) None []
  = ([], inl missing_credential_error)
  /\ configuration_error missing_credential_error.
Proof. split; [reflexivity | right; reflexivity]. Qed.

(** C4: the scripted run, with examples and a key.  The graph runs to its
    end, the values it returns hold the final answer and no changes_summary,
    and process_answer raises where it would build its result. *)
Lemma completed_run_witness :
  exists log' values,
    invoke Demo.environ Demo.gateway Json.loads Demo.str_of_scalar
      Demo.client Demo.examples (initial_state Demo.query Demo.answer) []
    = (log', inr values)
    /\ List.length log' = 3
    /\ dict_lookup values "final_answer"
       = Some (PStr ("1. Go to Settings." ++ PyStr.nl
                     ++ "2. Click the reset password link."))
    /\ dict_lookup values "changes_summary" = None
    /\ exists msg,
         process_answer Demo.environ Demo.gateway Json.loads
           Demo.str_of_scalar Demo.no_csv
           Demo.query Demo.answer (Some Demo.examples) None []
         = (log', inl (OtherError "AttributeError" msg)).
Proof.
  destruct (invoke Demo.environ Demo.gateway Json.loads Demo.str_of_scalar
              Demo.client Demo.examples
              (initial_state Demo.query Demo.answer) [])
    as [log' [e|values]] eqn:Hrun; [vm_compute in Hrun; discriminate Hrun|].
  exists log', values. split; [reflexivity|].
  destruct (proj2 (completed_run_gives_no_result
                     Demo.environ Demo.gateway Json.loads Demo.str_of_scalar
                     Demo.no_csv Demo.query Demo.answer (Some Demo.examples)
                     None [])
              Demo.client Demo.examples log' values eq_refl eq_refl Hrun)
    as (text & a & f & changed & issues & improvements & msg
        & Hlen & _ & _ & _ & Hsummary & Hout).
  split; [exact Hlen|].
  split; [|split; [exact Hsummary | exists msg; exact Hout]].
  vm_compute in Hrun. injection Hrun as _ <-. reflexivity.
Defined.

(** ** Further runs *)

Example loader_ex :
  Csv.load_formatting_examples_from_csv (inr Csv.demo_rows)
  = inr [[("task", PStr "reset password");
          ("bad_format", PStr "go to settings");
          ("good_format", PStr "1. Go to Settings.");
          ("explanation",
           PStr (Csv.bullet ++ "numbered steps" ++ PyStr.nl
                 ++ Csv.bullet ++ "capital letters" ++ PyStr.nl
                 ++ Csv.bullet ++ "full stops" ++ PyStr.nl
                 ++ Csv.bullet ++ "one step per line"))];
         [("task", PStr " refund ");
          ("bad_format", PStr "we refund");
          ("good_format", PStr "We refund.");
          ("explanation", PStr (Csv.bullet ++ "capital letter"))]]
  /\ Csv.load_formatting_examples_from_csv
       (inr (Csv.demo_rows ++ [Csv.short_row])%list)
     = inl (OtherError "AttributeError"
              "'NoneType' object has no attribute 'strip'").
Proof. split; vm_compute; reflexivity. Qed.

(** X2: the environment holds no key. *)
Lemma no_credential_witness :
  (@None string = None \/ @None string = Some EmptyString)
  /\ process_answer None Demo.gateway Json.loads Demo.str_of_scalar Demo.no_csv
       Demo.query Demo.answer (Some Demo.examples) None []
     = ([], inl missing_credential_error)
  /\ create_final_answer None Demo.fixed_state None []
     = ([], inl missing_credential_error).
Proof.
  assert (H : @None string = None \/ @None string = Some EmptyString)
    by (left; reflexivity).
  destruct (no_credential_no_request None Demo.gateway Json.loads
              Demo.str_of_scalar Demo.no_csv Demo.query Demo.answer
              Demo.examples None Demo.fixed_state [] H)
    as (P & _ & _ & _ & Q).
  exact (conj H (conj P Q)).
Defined.

(** X4: a run whose formatting reply gives a list as the improved answer:
    the graph returns it as the final answer. *)
Lemma successful_run_witness :
  exists log' values,
    invoke Demo.environ Demo.list_gateway Json.loads Demo.str_of_scalar
      Demo.client Demo.examples (initial_state Demo.query Demo.answer) []
    = (log', inr values)
    /\ List.length log' = 3
    /\ dict_lookup values "user_query" = Some (PStr Demo.query)
    /\ dict_lookup values "grammar_fixed_answer" = Some (PStr Demo.fixed)
    /\ dict_lookup values "final_answer" = Some (PList [PStr "a"])
    /\ dict_lookup values "changes_summary" = None.
Proof.
  destruct (invoke Demo.environ Demo.list_gateway Json.loads
              Demo.str_of_scalar Demo.client Demo.examples
              (initial_state Demo.query Demo.answer) [])
    as [log' [e|values]] eqn:Hrun; [vm_compute in Hrun; discriminate Hrun|].
  exists log', values. split; [reflexivity|].
  destruct (successful_run_shape _ _ _ _ _ _ _ _ _ _ Hrun)
    as (text & a & f & Htext & _ & _ & Hlog & Hvalues).
  split; [now rewrite Hlog|].
  split; [now rewrite Hvalues|].
  split; [rewrite Hvalues; vm_compute in Htext; injection Htext as <-;
          reflexivity|].
  split; [|now rewrite Hvalues].
  vm_compute in Hrun. injection Hrun as _ <-. reflexivity.
Defined.

(** X7: a reply in plain prose. *)
Lemma bare_reply_witness :
  PyStr.contains fence Demo.prose = false
  /\ json_content Demo.prose = inr (PyStr.strip Demo.prose).
Proof.
  assert (H : PyStr.contains fence Demo.prose = false) by reflexivity.
  split; [exact H|].
  exact (proj1 (bare_reply_is_decoded_whole Json.loads Demo.fixed_state
                  Demo.prose H)).
Defined.

(** X8: a block labelled json between two sentences. *)
Lemma json_block_witness :
  PyStr.contains "`" Block.pre = false
  /\ PyStr.contains "`" Block.body = false
  /\ PyStr.startswith "`" Block.post = false
  /\ json_content
       (Block.pre ++ fence_json ++ Block.body ++ fence ++ Block.post)
     = inr (PyStr.strip Block.body)
  /\ Json.loads (PyStr.strip Block.body)
     = inr (PDict [("formatting_issues", PList []);
                   ("improvements_made", PList []);
                   ("improved_answer", PStr "Go to Settings.")]).
Proof.
  assert (H1 : PyStr.contains "`" Block.pre = false) by reflexivity.
  assert (H2 : PyStr.contains "`" Block.body = false) by reflexivity.
  assert (H3 : PyStr.startswith "`" Block.post = false) by reflexivity.
  refine (conj H1 (conj H2 (conj H3 (conj _ _)))).
  - exact (proj1 (json_block_is_decoded Json.loads Demo.fixed_state
                    Block.pre Block.body Block.post H1 H2 H3)).
  - vm_compute. reflexivity.
Defined.

(** X9: the same block between plain fences. *)
Lemma plain_block_witness :
  PyStr.contains "`" Block.pre = false
  /\ PyStr.contains "`" Block.body = false
  /\ PyStr.contains fence_json
       (Block.pre ++ fence ++ Block.body ++ fence ++ Block.post) = false
  /\ json_content (Block.pre ++ fence ++ Block.body ++ fence ++ Block.post)
     = inr (PyStr.strip Block.body).
Proof.
  assert (H1 : PyStr.contains "`" Block.pre = false) by reflexivity.
  assert (H2 : PyStr.contains "`" Block.body = false) by reflexivity.
  assert (H3 : PyStr.contains fence_json
                 (Block.pre ++ fence ++ Block.body ++ fence ++ Block.post)
               = false) by (vm_compute; reflexivity).
  refine (conj H1 (conj H2 (conj H3 _))).
  exact (proj1 (plain_block_is_decoded Json.loads Demo.fixed_state
                  Block.pre Block.body Block.post H1 H2 H3)).
Defined.

(** X10: the service answers the formatting request in plain prose. *)
Lemma unparseable_formatting_witness :
  let gateway := Demo.scripted [inr Demo.prose] in
  let st := Demo.fixed_state in
  json_content Demo.prose = inr Demo.prose
  /\ Json.loads Demo.prose = inl JSONDecodeError
  /\ gateway Demo.client []
       (formatting_request Demo.str_of_scalar st Demo.examples)
     = inr Demo.prose
  /\ formatted_answer
       (with_format st
          (Some [("formatting_issues",
                  PList [PStr "Unable to parse assessment"]);
                 ("improvements_made",
                  PList [PStr "Error processing formatting"]);
                 ("improved_answer", current_answer st)]))
     = PStr Demo.fixed.
Proof.
  cbv zeta.
  assert (H1 : json_content Demo.prose = inr Demo.prose) by reflexivity.
  assert (H2 : Json.loads Demo.prose = inl JSONDecodeError)
    by (vm_compute; reflexivity).
  assert (H3 : Demo.scripted [inr Demo.prose] Demo.client []
                 (formatting_request Demo.str_of_scalar Demo.fixed_state
                    Demo.examples) = inr Demo.prose) by reflexivity.
  destruct (unparseable_formatting_keeps_current_answer
              Demo.environ (Demo.scripted [inr Demo.prose]) Json.loads
              Demo.str_of_scalar Demo.fixed_state Demo.prose Demo.prose
              Demo.examples Demo.client [] H1 H2 H3) as (_ & P & _).
  exact (conj H1 (conj H2 (conj H3 P))).
Defined.

(** X12: the proposed answer of the scenario is not empty. *)
Lemma final_answer_not_empty_witness :
  proposed_answer Demo.empty_fix <> EmptyString
  /\ py_truthy (formatted_answer Demo.empty_fix) = true.
Proof.
  assert (H : proposed_answer Demo.empty_fix <> EmptyString) by discriminate.
  split; [exact H|].
  exact (proj1 (final_answer_not_empty Demo.empty_fix H)).
Defined.

(** X13: the service fails on the second request. *)
Lemma never_returns_witness :
  fst (process_answer Demo.environ (Demo.scripted [inr Demo.fixed])
         Json.loads Demo.str_of_scalar Demo.no_csv
         Demo.query Demo.answer (Some Demo.examples) None [])
  = [grammar_request (initial_state Demo.query Demo.answer);
     adequacy_request Demo.fixed_state]
  /\ snd (process_answer Demo.environ (Demo.scripted [inr Demo.fixed])
            Json.loads Demo.str_of_scalar Demo.no_csv
            Demo.query Demo.answer (Some Demo.examples) None [])
     = inl (OtherError "APIConnectionError" "Connection error.").
Proof.
  destruct (proj2 (process_answer_never_returns
                     Demo.environ (Demo.scripted [inr Demo.fixed])
                     Json.loads Demo.str_of_scalar Demo.no_csv
                     Demo.query Demo.answer (Some Demo.examples) None [])
              Demo.client Demo.examples eq_refl eq_refl)
    as (Hlog & Herr & _).
  split; [rewrite Hlog; reflexivity | apply Herr; reflexivity].
Defined.

(** X15: a result as main indexes it, and a result as the return statement
    of process_answer lays it out. *)
Lemma render_witness :
  render Demo.nested_result
  = ([Header "Final Answer";
      Write "Final Answer:" (PStr Demo.fixed);
      Header "Summary of Changes";
      Write "Adequacy Issues:" (PDict [("adequately_addressed", PBool true)]);
      Write "Formatting Improvements:" (PList [PStr "one long line"])],
     inr tt)
  /\ render Demo.flat_result
     = ([Header "Final Answer"],
        inl (TypeError "string indices must be integers, not 'str'")).
Proof.
  split.
  - apply (proj1 (render_needs_nested_result Demo.nested_result)).
    do 5 eexists. repeat split.
  - apply (proj1 (proj2 (render_needs_nested_result Demo.flat_result))
             Demo.fixed).
    reflexivity.
Defined.

(** X17: a row whose first description holds a blank line and whose second
    one is blank: one description, of three lines. *)
Lemma explanation_witness :
  exists example,
    Csv.example_of_row Csv.blank_line_row = inr example
    /\ Csv.change_descriptions Csv.blank_line_row
       = inr ["capital letter" ++ PyStr.nl ++ PyStr.nl ++ "full stop"]
    /\ dict_lookup example "explanation"
       = Some (PStr (Csv.bullet ++ "capital letter" ++ PyStr.nl ++ PyStr.nl
                     ++ "full stop")).
Proof.
  destruct (Csv.example_of_row Csv.blank_line_row) as [e|example] eqn:H;
    [vm_compute in H; discriminate H|].
  exists example. split; [reflexivity|].
  destruct (explanation_lists_the_descriptions _ _ H) as (D & E & _).
  split; [rewrite D | rewrite E]; vm_compute; reflexivity.
Defined.

(** X5: the service fails on the first request. *)
Lemma service_failure_witness :
  let e := OtherError "RateLimitError" "429" in
  let gateway := Demo.scripted [inl e] in
  let st := initial_state Demo.query Demo.answer in
  gateway Demo.client [] (grammar_request st) = inl e
  /\ invoke Demo.environ gateway Json.loads Demo.str_of_scalar
       Demo.client Demo.examples st []
     = ([grammar_request st], inl e).
Proof.
  cbv zeta.
  assert (H : Demo.scripted [inl (OtherError "RateLimitError" "429")]
                Demo.client []
                (grammar_request (initial_state Demo.query Demo.answer))
              = inl (OtherError "RateLimitError" "429")) by reflexivity.
  exact (conj H
           (proj1 (service_failure_halts_the_run
                     Demo.environ
                     (Demo.scripted [inl (OtherError "RateLimitError" "429")])
                     Json.loads Demo.str_of_scalar Demo.client Demo.examples
                     (initial_state Demo.query Demo.answer) []
                     (OtherError "RateLimitError" "429")) H)).
Defined.

(** X18: the row of a short line, whose first description has no cell. *)
Lemma short_row_witness :
  (exists i, In i [1; 2; 3; 4]
             /\ Csv.row_lookup Csv.short_row (Csv.description_key i)
                = Some None)
  /\ Csv.example_of_row Csv.short_row
     = inl (OtherError "AttributeError"
              "'NoneType' object has no attribute 'strip'").
Proof.
  assert (H : exists i, In i [1; 2; 3; 4]
                /\ Csv.row_lookup Csv.short_row (Csv.description_key i)
                   = Some None)
    by (exists 1; split; [now left | reflexivity]).
  exact (conj H (proj1 (example_of_row_cases Csv.short_row) H)).
Defined.
